(** * CAutoHideDockContainer (src/AutoHideDockContainer.cpp)

    A shallow embedding of the auto-hide dock container of the Qt Advanced
    Docking System.  The container is a QFrame that slides in from one side
    of its parent dock container; it owns a dock area, a resize handle and a
    side tab, and it installs itself as an application-wide event filter
    while it is expanded.

    Layout of this file:
    - [Qt]       the part of the GUI toolkit the container relies on: points,
                 sizes, rectangles, the geometry and visibility of a widget,
                 a box layout, an XML stream writer;
    - [Ads]      the container itself, one definition per function of the
                 source file, over an interface [DockSystem] for the other
                 classes of the docking system;
    - [Reference] a small instance of [DockSystem] on which the definitions
                 run;
    - the theorems.

    C++ [int] arithmetic is written on [Z]: signed overflow is undefined in
    C++ and no operation here relies on wrap-around.  A call through a null
    pointer is undefined behaviour as well; the functions that can make one
    return [None] there. *)

From Stdlib Require Import ZArith List String Bool Lia.
From Stdlib Require DecimalString.
Import ListNotations.
Local Open Scope Z_scope.

(* ================================================================= *)
(** ** The GUI toolkit *)

Module Qt.

(** QPoint *)
Record QPoint : Type := mkQPoint { px : Z; py : Z }.

(** QSize; the default constructed size is the invalid size (-1, -1). *)
Record QSize : Type := mkQSize { width : Z; height : Z }.

Definition invalidSize : QSize := mkQSize (-1) (-1).

Definition setWidth (w : Z) (s : QSize) : QSize := mkQSize w (height s).
Definition setHeight (h : Z) (s : QSize) : QSize := mkQSize (width s) h.

(** operator+ on sizes *)
Definition size_add (a b : QSize) : QSize :=
  mkQSize (width a + width b) (height a + height b).

(** QSize::boundedTo and QSize::expandedTo *)
Definition boundedTo (s other : QSize) : QSize :=
  mkQSize (Z.min (width s) (width other)) (Z.min (height s) (height other)).
Definition expandedTo (s other : QSize) : QSize :=
  mkQSize (Z.max (width s) (width other)) (Z.max (height s) (height other)).

(** qMin(a, b) is [(b < a) ? b : a]. *)
Definition qMin (a b : Z) : Z := if b <? a then b else a.

(** QRect keeps its two corners; both are inside the rectangle. *)
Record QRect : Type := mkQRect { x1 : Z; y1 : Z; x2 : Z; y2 : Z }.

Definition rectOf (x y w h : Z) : QRect := mkQRect x y (x + w - 1) (y + h - 1).

Definition left (r : QRect) : Z := x1 r.
Definition top (r : QRect) : Z := y1 r.
Definition right (r : QRect) : Z := x2 r.
Definition bottom (r : QRect) : Z := y2 r.
Definition rwidth (r : QRect) : Z := x2 r - x1 r + 1.
Definition rheight (r : QRect) : Z := y2 r - y1 r + 1.
Definition topLeft (r : QRect) : QPoint := mkQPoint (x1 r) (y1 r).
Definition topRight (r : QRect) : QPoint := mkQPoint (x2 r) (y1 r).
Definition bottomLeft (r : QRect) : QPoint := mkQPoint (x1 r) (y2 r).

(** QRect::contains(const QPoint&), the variant that counts the border. *)
Definition contains (r : QRect) (p : QPoint) : bool :=
  let '(l, rr) := if x2 r <? x1 r - 1 then (x2 r, x1 r) else (x1 r, x2 r) in
  if (px p <? l) || (rr <? px p) then false
  else
    let '(t, b) := if y2 r <? y1 r - 1 then (y2 r, y1 r) else (y1 r, y2 r) in
    if (py p <? t) || (b <? py p) then false else true.

(** The state of a QWidget as far as the container reads or writes it.
    [pos] is relative to the parent widget, [parentOrigin] is where the
    parent's origin lies in global coordinates.  [hidden] is the widget's own
    flag (set by hide(), cleared by show()); the widget is visible when it is
    not hidden and its ancestors are visible. *)
Record QWidget : Type := mkQWidget {
  pos : QPoint;
  size : QSize;
  minimumSize : QSize;
  maximumSize : QSize;
  hidden : bool;
  ancestorsVisible : bool;
  parentOrigin : QPoint;
  raised : bool
}.

Definition set_pos (p : QPoint) (w : QWidget) : QWidget :=
  mkQWidget p (size w) (minimumSize w) (maximumSize w) (hidden w)
            (ancestorsVisible w) (parentOrigin w) (raised w).
Definition set_size (s : QSize) (w : QWidget) : QWidget :=
  mkQWidget (pos w) s (minimumSize w) (maximumSize w) (hidden w)
            (ancestorsVisible w) (parentOrigin w) (raised w).
Definition set_hidden (b : bool) (w : QWidget) : QWidget :=
  mkQWidget (pos w) (size w) (minimumSize w) (maximumSize w) b
            (ancestorsVisible w) (parentOrigin w) (raised w).
Definition set_raised (b : bool) (w : QWidget) : QWidget :=
  mkQWidget (pos w) (size w) (minimumSize w) (maximumSize w) (hidden w)
            (ancestorsVisible w) (parentOrigin w) b.

(** QWidget::resize: the requested size is adjusted to the range given by
    minimumSize() and maximumSize(). *)
Definition resize (w h : Z) (q : QWidget) : QWidget :=
  set_size (expandedTo (boundedTo (mkQSize w h) (maximumSize q)) (minimumSize q)) q.

Definition move (p : QPoint) (q : QWidget) : QWidget := set_pos p q.
Definition hide (q : QWidget) : QWidget := set_hidden true q.
Definition show (q : QWidget) : QWidget := set_hidden false q.
Definition raise (q : QWidget) : QWidget := set_raised true q.

Definition isVisible (q : QWidget) : bool := negb (hidden q) && ancestorsVisible q.

(** QWidget::rect() is (0, 0, width, height). *)
Definition rect (q : QWidget) : QRect := rectOf 0 0 (width (size q)) (height (size q)).

(** QWidget::geometry(), relative to the parent. *)
Definition geometry (q : QWidget) : QRect :=
  rectOf (px (pos q)) (py (pos q)) (width (size q)) (height (size q)).

Definition mapFromGlobal (q : QWidget) (g : QPoint) : QPoint :=
  mkQPoint (px g - (px (parentOrigin q) + px (pos q)))
           (py g - (py (parentOrigin q) + py (pos q))).

(** Qt::Edge and Qt::Orientation *)
Inductive Edge : Type := TopEdge | LeftEdge | RightEdge | BottomEdge.
Inductive Orientation : Type := Horizontal | Vertical.

(** QBoxLayout: a direction and the widgets in layout order. *)
Inductive Direction : Type := LeftToRight | RightToLeft | TopToBottom | BottomToTop.

Record QBoxLayout (W : Type) : Type := mkQBoxLayout {
  direction : Direction;
  contentsMargins : option (Z * Z * Z * Z);
  spacing : option Z;
  items : list W
}.
Arguments mkQBoxLayout {W}.
Arguments direction {W}.
Arguments contentsMargins {W}.
Arguments spacing {W}.
Arguments items {W}.

(** [new QBoxLayout(dir)]: empty, margins and spacing left to the style
    ([None]) until they are set. *)
Definition newLayout {W} (dir : Direction) : QBoxLayout W :=
  mkQBoxLayout dir None None [].

Definition setContentsMargins {W} (l t r b : Z) (lay : QBoxLayout W) : QBoxLayout W :=
  mkQBoxLayout (direction lay) (Some (l, t, r, b)) (spacing lay) (items lay).
Definition setSpacing {W} (sp : Z) (lay : QBoxLayout W) : QBoxLayout W :=
  mkQBoxLayout (direction lay) (contentsMargins lay) (Some sp) (items lay).

(** QBoxLayout::insertWidget(index, w): a negative index appends. *)
Definition insertWidget {W} (index : Z) (w : W) (lay : QBoxLayout W) : QBoxLayout W :=
  let l := items lay in
  let l' := if index <? 0 then l ++ [w]
            else firstn (Z.to_nat index) l ++ w :: skipn (Z.to_nat index) l in
  mkQBoxLayout (direction lay) (contentsMargins lay) (spacing lay) l'.

(** QBoxLayout::addWidget(w) is insertWidget(-1, w). *)
Definition addWidget {W} (w : W) (lay : QBoxLayout W) : QBoxLayout W :=
  insertWidget (-1) w lay.

(** What a QXmlStreamWriter has been asked to write. *)
Inductive XmlToken : Type :=
| StartElement (name : string)
| Attribute (name value : string)
| EndElement.

(** QString::number(int), base 10. *)
Definition number (n : Z) : string :=
  DecimalString.NilZero.string_of_int (Z.to_int n).

(** QEvent::type(), the types the container tells apart. *)
Inductive EventType : Type :=
| Resize
| MouseButtonPress
| NonClientAreaMouseButtonPress
| FloatingWidgetDragStartEvent
| Enter
| Hide
| OtherEvent.

End Qt.

(* ================================================================= *)
(** ** The docking system around the container *)

Module Ads.
Import Qt.

(** Addresses of the objects the container points to. *)
Definition ObjPtr : Type := nat.
Definition ContainerPtr : Type := ObjPtr.   (* CDockContainerWidget* *)
Definition AreaPtr : Type := ObjPtr.        (* CDockAreaWidget* *)
Definition DockWidgetPtr : Type := ObjPtr.  (* CDockWidget* *)
Definition TabPtr : Type := ObjPtr.         (* CAutoHideTab* *)

(** Modelled from the spec: the declaration of the enumeration
    SideBarLocation is not in the source file; these are the enumerators the
    file names (the four sides in its switches, [SideBarNone] as the initial
    value of the private data).  [SideBarNone] takes the [default] branch of
    every switch. *)
Inductive SideBarLocation : Type :=
| SideBarTop | SideBarLeft | SideBarRight | SideBarBottom | SideBarNone.

(** Modelled from the spec: DockWidgetArea, declared outside the source
    file; the enumerators that getDockWidgetArea returns. *)
Inductive DockWidgetArea : Type :=
| LeftDockWidgetArea | RightDockWidgetArea | TopDockWidgetArea | BottomDockWidgetArea.

Definition ResizeMargin : Z := 30.

Definition isHorizontalArea (Area : SideBarLocation) : bool :=
  match Area with
  | SideBarTop | SideBarBottom => true
  | SideBarLeft | SideBarRight => false
  | _ => true
  end.

Definition edgeFromSideTabBarArea (Area : SideBarLocation) : Edge :=
  match Area with
  | SideBarTop => BottomEdge
  | SideBarBottom => TopEdge
  | SideBarLeft => RightEdge
  | SideBarRight => LeftEdge
  | _ => LeftEdge
  end.

Definition resizeHandleLayoutPosition (Area : SideBarLocation) : Z :=
  match Area with
  | SideBarBottom | SideBarRight => 0
  | SideBarTop | SideBarLeft => 1
  | _ => 0
  end.

Definition getDockWidgetArea (area : SideBarLocation) : DockWidgetArea :=
  match area with
  | SideBarLeft => LeftDockWidgetArea
  | SideBarRight => RightDockWidgetArea
  | SideBarBottom => BottomDockWidgetArea
  | SideBarTop => TopDockWidgetArea
  | _ => LeftDockWidgetArea
  end.

(** Modelled from the spec: CResizeHandle is implemented outside the source
    file.  The container gives it an edge at construction, sets its minimum
    and maximum resize size and its opaque-resize flag, and asks it for its
    orientation and whether a resize is in progress. *)
Record CResizeHandle : Type := mkResizeHandle {
  handlePosition : Edge;
  minResizeSize : Z;
  maxResizeSize : Z;
  opaqueResize : bool;
  isResizing : bool
}.

Definition setHandlePosition (e : Edge) (h : CResizeHandle) : CResizeHandle :=
  mkResizeHandle e (minResizeSize h) (maxResizeSize h) (opaqueResize h) (isResizing h).
Definition setMinResizeSize (n : Z) (h : CResizeHandle) : CResizeHandle :=
  mkResizeHandle (handlePosition h) n (maxResizeSize h) (opaqueResize h) (isResizing h).
Definition setMaxResizeSize (n : Z) (h : CResizeHandle) : CResizeHandle :=
  mkResizeHandle (handlePosition h) (minResizeSize h) n (opaqueResize h) (isResizing h).
Definition setOpaqueResize (b : bool) (h : CResizeHandle) : CResizeHandle :=
  mkResizeHandle (handlePosition h) (minResizeSize h) (maxResizeSize h) b (isResizing h).

(** The calls the container makes on the other objects of the docking
    system.  What they do there is not the container's business; it is left
    to the interface [DockSystem]. *)
Inductive Call : Type :=
| CreateDockWidgetSideTab
| NewDockAreaWidget (DockWidget : DockWidgetPtr) (parent : ContainerPtr)
| AreaSetObjectName (a : AreaPtr) (name : string)
| AreaSetAutoHideDockContainer (a : AreaPtr)
| AreaRemoveDockWidget (a : AreaPtr) (w : DockWidgetPtr)
| AreaAddDockWidget (a : AreaPtr) (w : DockWidgetPtr)
| TabSetDockWidget (t : TabPtr) (w : DockWidgetPtr)
| TabShow (t : TabPtr)
| TabHide (t : TabPtr)
| TabUpdateStyle (t : TabPtr)
| SetDockWidgetFocused (w : DockWidgetPtr)
| RegisterAutoHideWidget (c : ContainerPtr).

(** The rest of the docking system, as the container sees it: a state
    [World], the calls that change it and the queries the container makes.
    The pointer a creating call returns is asked for in the world before the
    call. *)
Class DockSystem (World : Type) : Type := {
  perform : Call -> World -> World;
  (* componentsFactory()->createDockWidgetSideTab(nullptr) *)
  newSideTab : World -> TabPtr;
  (* new CDockAreaWidget(DockWidget->dockManager(), parent) *)
  newDockArea : World -> DockWidgetPtr -> ContainerPtr -> AreaPtr;
  (* CDockAreaWidget::dockContainer() and size() *)
  areaDockContainer : World -> AreaPtr -> option ContainerPtr;
  areaSize : World -> AreaPtr -> QSize;
  (* CDockContainerWidget::contentRect() *)
  contentRect : World -> ContainerPtr -> QRect;
  (* CDockWidget::dockAreaWidget(), objectName(), isClosed() *)
  dockAreaWidget : World -> DockWidgetPtr -> option AreaPtr;
  dockWidgetName : World -> DockWidgetPtr -> string;
  isClosed : World -> DockWidgetPtr -> bool;
  (* DockWidget->dockManager()->isRestoringState() *)
  isRestoringState : World -> DockWidgetPtr -> bool;
  (* the side tab as a widget: its rect() and mapFromGlobal() *)
  tabWidget : World -> TabPtr -> QWidget;
  (* CDockManager::testConfigFlag(CDockManager::OpaqueSplitterResize) *)
  opaqueSplitterResize : World -> bool;
  (* a CResizeHandle before the container configures it, and
     CResizeHandle::orientation() as a function of the edge *)
  freshResizeHandle : CResizeHandle;
  handleOrientation : Edge -> Orientation
}.

(** Slots of the container that a signal can be connected to. *)
Inductive Slot : Type := SlotToggleCollapseState.

(** What the container's layout holds. *)
Inductive LayoutItem : Type :=
| ItemDockArea (a : AreaPtr)
| ItemResizeHandle.

(** AutoHideDockContainerPrivate *)
Record AutoHideDockContainerPrivate : Type := mkPrivate {
  DockArea : option AreaPtr;
  DockWidget : option DockWidgetPtr;
  SideTabBarArea : SideBarLocation;
  Layout : option (QBoxLayout LayoutItem);
  ResizeHandle : option CResizeHandle;
  Size : QSize;
  SideTab : option TabPtr
}.

Definition initPrivate : AutoHideDockContainerPrivate :=
  mkPrivate None None SideBarNone None None invalidSize None.

Definition setDockArea a (p : AutoHideDockContainerPrivate) :=
  mkPrivate a (DockWidget p) (SideTabBarArea p) (Layout p) (ResizeHandle p) (Size p) (SideTab p).
Definition setDockWidget w (p : AutoHideDockContainerPrivate) :=
  mkPrivate (DockArea p) w (SideTabBarArea p) (Layout p) (ResizeHandle p) (Size p) (SideTab p).
Definition setSideTabBarArea l (p : AutoHideDockContainerPrivate) :=
  mkPrivate (DockArea p) (DockWidget p) l (Layout p) (ResizeHandle p) (Size p) (SideTab p).
Definition setLayout l (p : AutoHideDockContainerPrivate) :=
  mkPrivate (DockArea p) (DockWidget p) (SideTabBarArea p) l (ResizeHandle p) (Size p) (SideTab p).
Definition setResizeHandle h (p : AutoHideDockContainerPrivate) :=
  mkPrivate (DockArea p) (DockWidget p) (SideTabBarArea p) (Layout p) h (Size p) (SideTab p).
Definition setSizeField s (p : AutoHideDockContainerPrivate) :=
  mkPrivate (DockArea p) (DockWidget p) (SideTabBarArea p) (Layout p) (ResizeHandle p) s (SideTab p).
Definition setSideTab t (p : AutoHideDockContainerPrivate) :=
  mkPrivate (DockArea p) (DockWidget p) (SideTabBarArea p) (Layout p) (ResizeHandle p) (Size p) t.

(** A CAutoHideDockContainer together with what it acts on: its QFrame base
    [super], its parent widget, its private data [d], the slots connected to
    the pressed signal of its side tab, whether the application has it
    installed as an event filter, and the rest of the docking system. *)
Record Container (World : Type) : Type := mkContainer {
  super : QWidget;
  parentWidget : option ContainerPtr;
  objectName : string;
  d : AutoHideDockContainerPrivate;
  pressedSlots : list Slot;
  appEventFilter : bool;
  world : World
}.
Arguments mkContainer {World}.
Arguments super {World}.
Arguments parentWidget {World}.
Arguments objectName {World}.
Arguments d {World}.
Arguments pressedSlots {World}.
Arguments appEventFilter {World}.
Arguments world {World}.


(* ----------------------------------------------------------------- *)
(** *** The member functions *)

Section Members.

Context {World : Type} {DS : DockSystem World}.

Local Notation "'State'" := (Container World).

Definition withSuper (q : QWidget) (s : State) : State :=
  mkContainer q (parentWidget s) (objectName s) (d s) (pressedSlots s)
              (appEventFilter s) (world s).
Definition withObjectName (n : string) (s : State) : State :=
  mkContainer (super s) (parentWidget s) n (d s) (pressedSlots s)
              (appEventFilter s) (world s).
Definition withD (p : AutoHideDockContainerPrivate) (s : State) : State :=
  mkContainer (super s) (parentWidget s) (objectName s) p (pressedSlots s)
              (appEventFilter s) (world s).
Definition withPressedSlots (l : list Slot) (s : State) : State :=
  mkContainer (super s) (parentWidget s) (objectName s) (d s) l
              (appEventFilter s) (world s).
Definition withAppEventFilter (b : bool) (s : State) : State :=
  mkContainer (super s) (parentWidget s) (objectName s) (d s) (pressedSlots s)
              b (world s).
Definition withWorld (w : World) (s : State) : State :=
  mkContainer (super s) (parentWidget s) (objectName s) (d s) (pressedSlots s)
              (appEventFilter s) w.

(** A call on another object of the docking system. *)
Definition call (c : Call) (s : State) : State := withWorld (perform c (world s)) s.

(** qApp->installEventFilter(this) and qApp->removeEventFilter(this) *)
Definition installEventFilter (s : State) : State := withAppEventFilter true s.
Definition removeEventFilter (s : State) : State := withAppEventFilter false s.

(** The state and error monad of the member functions: [None] is a call
    through a null pointer. *)
Definition M (A : Type) : Type := State -> option (A * State).

Definition ret {A} (a : A) : M A := fun s => Some (a, s).
Definition bind {A B} (m : M A) (k : A -> M B) : M B :=
  fun s => match m s with
           | Some (a, s') => k a s'
           | None => None
           end.
Definition gets {A} (f : State -> A) : M A := fun s => Some (f s, s).
Definition modify (f : State -> State) : M unit := fun s => Some (tt, f s).
(** [p->...] on a pointer that may be null *)
Definition deref {A} (f : State -> option A) : M A :=
  fun s => match f s with
           | Some a => Some (a, s)
           | None => None
           end.

Notation "x <- m ;; k" := (bind m (fun x => k))
  (at level 61, m at next level, right associativity).
Notation "m ;; k" := (bind m (fun _ => k))
  (at level 61, right associativity).

(** internal::findParent<CDockContainerWidget*>(this): the container is
    constructed with a CDockContainerWidget as its parent widget, the search
    ends there. *)
Definition findParent (s : State) : option ContainerPtr := parentWidget s.

Definition dockContainer (s : State) : option ContainerPtr :=
  match DockArea (d s) with
  | Some a => areaDockContainer (world s) a
  | None => findParent s
  end.

Definition sideBarLocation (s : State) : SideBarLocation := SideTabBarArea (d s).

Definition isHorizontal (s : State) : bool := isHorizontalArea (SideTabBarArea (d s)).

Definition updateSize (s : State) : State :=
  match dockContainer s with
  | None => s
  | Some dockContainerParent =>
    let rect := contentRect (world s) dockContainerParent in
    match sideBarLocation s with
    | SideBarTop =>
      let s1 := withSuper (resize (rwidth rect)
                  (qMin (rheight rect - ResizeMargin) (height (Size (d s)))) (super s)) s in
      withSuper (move (topLeft rect) (super s1)) s1
    | SideBarLeft =>
      let s1 := withSuper (resize (qMin (width (Size (d s))) (rwidth rect - ResizeMargin))
                  (rheight rect) (super s)) s in
      withSuper (move (topLeft rect) (super s1)) s1
    | SideBarRight =>
      let s1 := withSuper (resize (qMin (width (Size (d s))) (rwidth rect - ResizeMargin))
                  (rheight rect) (super s)) s in
      let p := topRight rect in
      let p := mkQPoint (px p - (width (size (super s1)) - 1)) (py p) in
      withSuper (move p (super s1)) s1
    | SideBarBottom =>
      let s1 := withSuper (resize (rwidth rect)
                  (qMin (rheight rect - ResizeMargin) (height (Size (d s)))) (super s)) s in
      let p := bottomLeft rect in
      let p := mkQPoint (px p) (py p - (height (size (super s1)) - 1)) in
      withSuper (move p (super s1)) s1
    | _ => s
    end
  end.

(** AutoHideDockContainerPrivate::updateResizeHandleSizeLimitMax: both the
    dock container and the resize handle are used without a null check. *)
Definition updateResizeHandleSizeLimitMax : M unit :=
  c <- deref dockContainer ;;
  Rect <- gets (fun s => contentRect (world s) c) ;;
  h <- deref (fun s => ResizeHandle (d s)) ;;
  let maxResizeHandleSize :=
    match handleOrientation (handlePosition h) with
    | Horizontal => rwidth Rect
    | Vertical => rheight Rect
    end in
  modify (fun s => withD (setResizeHandle
            (Some (setMaxResizeSize (maxResizeHandleSize - ResizeMargin) h)) (d s)) s).

Definition addDockWidget (DockWidget' : DockWidgetPtr) : M unit :=
  old <- gets (fun s => DockWidget (d s)) ;;
  match old with
  | Some w =>
    a <- deref (fun s => DockArea (d s)) ;;
    modify (call (AreaRemoveDockWidget a w))
  | None => ret tt
  end ;;
  modify (fun s => withD (setDockWidget (Some DockWidget') (d s)) s) ;;
  t <- deref (fun s => SideTab (d s)) ;;
  modify (call (TabSetDockWidget t DockWidget')) ;;
  OldDockArea <- gets (fun s => dockAreaWidget (world s) DockWidget') ;;
  IsRestoringState <- gets (fun s => isRestoringState (world s) DockWidget') ;;
  match OldDockArea with
  | Some oa =>
    if negb IsRestoringState then
      modify (fun s => withD (setSizeField
                (size_add (areaSize (world s) oa) (mkQSize 16 16)) (d s)) s) ;;
      modify (call (AreaRemoveDockWidget oa DockWidget'))
    else ret tt
  | None => ret tt
  end ;;
  a <- deref (fun s => DockArea (d s)) ;;
  modify (call (AreaAddDockWidget a DockWidget')) ;;
  modify updateSize.

(** d->ResizeHandle->... and d->Layout->... *)
Definition onResizeHandle (f : CResizeHandle -> CResizeHandle) : M unit :=
  h <- deref (fun s => ResizeHandle (d s)) ;;
  modify (fun s => withD (setResizeHandle (Some (f h)) (d s)) s).
Definition onLayout (f : QBoxLayout LayoutItem -> QBoxLayout LayoutItem) : M unit :=
  l <- deref (fun s => Layout (d s)) ;;
  modify (fun s => withD (setLayout (Some (f l)) (d s)) s).

(** The object as the base class constructor [Super(parent)] and the
    constructor of the private data leave it: [base] is the fresh QFrame. *)
Definition allocated (base : QWidget) (parent : ContainerPtr) (w : World) : State :=
  mkContainer base (Some parent) EmptyString initPrivate [] false w.

Definition constructorBody (DockWidget' : DockWidgetPtr) (area : SideBarLocation)
    (parent : ContainerPtr) : M unit :=
  modify (fun s => withSuper (hide (super s)) s) ;;
  modify (fun s => withD (setSideTabBarArea area (d s)) s) ;;
  t <- gets (fun s => newSideTab (world s)) ;;
  modify (call CreateDockWidgetSideTab) ;;
  modify (fun s => withD (setSideTab (Some t) (d s)) s) ;;
  modify (fun s => withPressedSlots (pressedSlots s ++ [SlotToggleCollapseState]) s) ;;
  a <- gets (fun s => newDockArea (world s) DockWidget' parent) ;;
  modify (call (NewDockAreaWidget DockWidget' parent)) ;;
  modify (fun s => withD (setDockArea (Some a) (d s)) s) ;;
  modify (call (AreaSetObjectName a "autoHideDockArea")) ;;
  modify (call (AreaSetAutoHideDockContainer a)) ;;
  modify (withObjectName "autoHideDockContainer") ;;
  modify (fun s => withD (setLayout
            (Some (newLayout (if isHorizontalArea area then TopToBottom else LeftToRight)))
            (d s)) s) ;;
  onLayout (setContentsMargins 0 0 0 0) ;;
  onLayout (setSpacing 0) ;;
  (* setLayout(d->Layout): the layout of the QFrame is d->Layout itself *)
  modify (fun s => withD (setResizeHandle
            (Some (setHandlePosition (edgeFromSideTabBarArea area) freshResizeHandle))
            (d s)) s) ;;
  onResizeHandle (setMinResizeSize 64) ;;
  OpaqueResize <- gets (fun s => opaqueSplitterResize (world s)) ;;
  onResizeHandle (setOpaqueResize OpaqueResize) ;;
  a' <- deref (fun s => DockArea (d s)) ;;
  modify (fun s => withD (setSizeField (areaSize (world s) a') (d s)) s) ;;
  addDockWidget DockWidget' ;;
  modify (call (RegisterAutoHideWidget parent)) ;;
  a'' <- deref (fun s => DockArea (d s)) ;;
  onLayout (addWidget (ItemDockArea a'')) ;;
  onLayout (insertWidget (resizeHandleLayoutPosition area) ItemResizeHandle).

(** CAutoHideDockContainer::CAutoHideDockContainer(DockWidget, area, parent);
    both pointers are used without a null check. *)
Definition construct (DockWidget' : DockWidgetPtr) (area : SideBarLocation)
    (parent : ContainerPtr) (base : QWidget) (w : World) : option State :=
  match constructorBody DockWidget' area parent (allocated base parent w) with
  | Some (_, s) => Some s
  | None => None
  end.

(** saveState(QXmlStreamWriter&): [s] is what the writer holds so far. *)
Definition saveState (st : State) (s : list XmlToken) : option (list XmlToken) :=
  match DockWidget (d st) with
  | None => None
  | Some w =>
    let s := s ++ [StartElement "Widget"] in
    let s := s ++ [Attribute "Name" (dockWidgetName (world st) w)] in
    let s := s ++ [Attribute "Closed" (number (if isClosed (world st) w then 1 else 0))] in
    let s := s ++ [Attribute "Size"
                     (number (if isHorizontal st then height (Size (d st))
                              else width (Size (d st))))] in
    Some (s ++ [EndElement])
  end.

Definition toggleView (Enable : bool) (s : State) : State :=
  if Enable then
    match SideTab (d s) with
    | Some t => call (TabShow t) s
    | None => s
    end
  else
    let s1 := match SideTab (d s) with
              | Some t => call (TabHide t) s
              | None => s
              end in
    let s2 := withSuper (hide (super s1)) s1 in
    removeEventFilter s2.

(** collapseView(bool); the ADS_PRINT line only writes to the debug log. *)
Definition collapseView (Enable : bool) : M unit :=
  (if Enable then
     modify (fun s => withSuper (hide (super s)) s) ;;
     modify removeEventFilter
   else
     modify updateSize ;;
     updateResizeHandleSizeLimitMax ;;
     modify (fun s => withSuper (raise (super s)) s) ;;
     modify (fun s => withSuper (show (super s)) s) ;;
     w <- deref (fun s => DockWidget (d s)) ;;
     modify (call (SetDockWidgetFocused w)) ;;
     modify installEventFilter) ;;
  t <- deref (fun s => SideTab (d s)) ;;
  modify (call (TabUpdateStyle t)).

Definition toggleCollapseState : M unit :=
  v <- gets (fun s => isVisible (super s)) ;;
  collapseView v.

Definition setSize (Size' : Z) (s : State) : State :=
  let s1 := if isHorizontal s
            then withD (setSizeField (setHeight Size' (Size (d s))) (d s)) s
            else withD (setSizeField (setWidth Size' (Size (d s))) (d s)) s in
  updateSize s1.

(** The [watched] object of an event filter call: [widgetChain] is
    qobject_cast<QWidget*>(watched) followed by its parentWidget() chain up
    to the window (empty when watched is not a widget);
    [isFloatingDockContainer] tells whether
    qobject_cast<CFloatingDockContainer*>(watched) is non-null. *)
Record QObject : Type := mkQObject {
  widgetChain : list ObjPtr;
  isFloatingDockContainer : bool
}.

(** An event: its type and, for mouse events, internal::globalPositionOf. *)
Record QEvent : Type := mkQEvent {
  evType : EventType;
  globalPosition : QPoint
}.

(** The loop of eventFilter that walks from the watched widget to the top. *)
Fixpoint walkParents (Container : option ContainerPtr) (widget : list ObjPtr)
    (IsContainer : bool) : bool :=
  match widget with
  | [] => IsContainer
  | w :: parents =>
    let IsContainer :=
      match Container with
      | Some c => if Nat.eqb w c then true else IsContainer
      | None => IsContainer
      end in
    walkParents Container parents IsContainer
  end.

(** Super::eventFilter is QObject::eventFilter, which returns false. *)
Definition superEventFilter : bool := false.

Definition eventFilter (watched : QObject) (event : QEvent) : M bool :=
  match evType event with
  | Resize =>
    h <- deref (fun s => ResizeHandle (d s)) ;;
    (if negb (isResizing h) then modify updateSize else ret tt) ;;
    ret superEventFilter
  | MouseButtonPress =>
    Container <- gets dockContainer ;;
    let IsContainer := walkParents Container (widgetChain watched) false in
    if negb IsContainer then ret superEventFilter
    else
      let GlobalPos := globalPosition event in
      pos <- gets (fun s => mapFromGlobal (super s) GlobalPos) ;;
      inside <- gets (fun s => contains (rect (super s)) pos) ;;
      if inside then ret superEventFilter
      else
        t <- deref (fun s => SideTab (d s)) ;;
        SideTab' <- gets (fun s => tabWidget (world s) t) ;;
        let pos := mapFromGlobal SideTab' GlobalPos in
        if contains (rect SideTab') pos then ret superEventFilter
        else
          collapseView true ;;
          ret superEventFilter
  | NonClientAreaMouseButtonPress =>
    (if isFloatingDockContainer watched then collapseView true else ret tt) ;;
    ret superEventFilter
  | FloatingWidgetDragStartEvent =>
    collapseView true ;;
    ret superEventFilter
  | _ => ret superEventFilter
  end.

Definition resizeEvent : M unit :=
  h <- deref (fun s => ResizeHandle (d s)) ;;
  if isResizing h then
    modify (fun s => withD (setSizeField (size (super s)) (d s)) s) ;;
    updateResizeHandleSizeLimitMax
  else ret tt.

(** The side tab emits pressed(): the connected slots run in the order of
    their connection. *)
Definition runSlot (sl : Slot) : M unit :=
  match sl with
  | SlotToggleCollapseState => toggleCollapseState
  end.

Fixpoint runSlots (l : list Slot) : M unit :=
  match l with
  | [] => ret tt
  | sl :: rest => runSlot sl ;; runSlots rest
  end.

Definition sideTabPressed : M unit :=
  l <- gets pressedSlots ;;
  runSlots l.

End Members.

(* ----------------------------------------------------------------- *)
(** *** Vocabulary of the properties *)

Section Vocabulary.

Context {World : Type} {DS : DockSystem World}.

Local Notation "'State'" := (Container World).

(** The worlds addDockWidget goes through: [worldAfterRelease] once the dock
    widget held before is removed from the internal dock area and the new one
    is attached to the side tab. *)
Definition worldAfterRelease (s : State) (a : AreaPtr) (t : TabPtr)
    (w : DockWidgetPtr) : World :=
  let w0 := match DockWidget (d s) with
            | Some old => perform (AreaRemoveDockWidget a old) (world s)
            | None => world s
            end in
  perform (TabSetDockWidget t w) w0.

(** The dock area [w] is taken from: the one it is in, after the release
    above, unless the dock manager is restoring its state. *)
Definition takenFrom (s : State) (a : AreaPtr) (t : TabPtr)
    (w : DockWidgetPtr) : option AreaPtr :=
  let w1 := worldAfterRelease s a t w in
  match dockAreaWidget w1 w with
  | Some oa => if isRestoringState w1 w then None else Some oa
  | None => None
  end.

(** The maximum that updateResizeHandleSizeLimitMax gives the handle. *)
Definition resizeLimit (h : CResizeHandle) (R : QRect) : Z :=
  match handleOrientation (handlePosition h) with
  | Horizontal => rwidth R
  | Vertical => rheight R
  end - 30.

(** The container when the constructor reaches its call of addDockWidget:
    hidden, with its side tab, its connection, its internal dock area, its
    empty layout and its resize handle. *)
Definition configured (dw : DockWidgetPtr) (area : SideBarLocation)
    (parent : ContainerPtr) (base : QWidget) (w0 : World) : State :=
  let t := newSideTab w0 in
  let wT := perform CreateDockWidgetSideTab w0 in
  let a := newDockArea wT dw parent in
  let wA := perform (AreaSetAutoHideDockContainer a)
              (perform (AreaSetObjectName a "autoHideDockArea")
                 (perform (NewDockAreaWidget dw parent) wT)) in
  mkContainer (hide base) (Some parent) "autoHideDockContainer"
    (mkPrivate (Some a) None area
       (Some (mkQBoxLayout (if isHorizontalArea area then TopToBottom else LeftToRight)
                (Some (0, 0, 0, 0)) (Some 0) []))
       (Some (mkResizeHandle (edgeFromSideTabBarArea area) 64
                (maxResizeSize freshResizeHandle) (opaqueSplitterResize wA)
                (isResizing freshResizeHandle)))
       (areaSize wA a) (Some t))
    [SlotToggleCollapseState] false wA.

(** What the constructor does after addDockWidget: it registers the
    container with its parent and fills the layout. *)
Definition completion (area : SideBarLocation) (parent : ContainerPtr)
    (s : State) : option State :=
  match DockArea (d s), Layout (d s) with
  | Some a, Some lay =>
    Some (withD (setLayout
                   (Some (insertWidget (resizeHandleLayoutPosition area) ItemResizeHandle
                            (addWidget (ItemDockArea a) lay)))
                   (d s))
            (call (RegisterAutoHideWidget parent) s))
  | _, _ => None
  end.

(** The watched object is the dock container [Container] or a widget below
    it. *)
Definition belowContainer (Container : option ContainerPtr) (watched : QObject) : bool :=
  match Container with
  | Some c => existsb (fun w => Nat.eqb w c) (widgetChain watched)
  | None => false
  end.

(** The global position [g] falls on the widget [q]. *)
Definition hits (q : QWidget) (g : QPoint) : bool :=
  contains (rect q) (mapFromGlobal q g).

End Vocabulary.

(* ----------------------------------------------------------------- *)
(** *** Leaving, unpinning and destruction *)

(** The calls of the remaining member functions on the other objects of the
    docking system, and the one query they add. *)
Inductive LifetimeCall : Type :=
| TabRemoveFromSideBar (t : TabPtr)
| TabSetParentNull (t : TabPtr)
| DeleteLater
| DockWidgetSetDockAreaNull (w : DockWidgetPtr)
| ContainerAddDockWidget (c : ContainerPtr) (area : DockWidgetArea) (w : DockWidgetPtr)
| ContainerRemoveAutoHideWidget (c : ContainerPtr)
| DeleteSideTab (t : TabPtr)
| HandleAutoHideWidgetEvent (c : ContainerPtr) (event : QEvent).

Class DockLifetime (World : Type) : Type := {
  performLifetime : LifetimeCall -> World -> World;
  (* QCursor::pos() *)
  cursorPos : World -> QPoint
}.

Section Lifetime.

Context {World : Type} {DS : DockSystem World} {DL : DockLifetime World}.

Local Notation "'State'" := (Container World).

Local Notation "x <- m ;; k" := (bind m (fun x => k))
  (at level 61, m at next level, right associativity).
Local Notation "m ;; k" := (bind m (fun _ => k))
  (at level 61, right associativity).

Definition callLifetime (c : LifetimeCall) (s : State) : State :=
  withWorld (performLifetime c (world s)) s.

(** AutoHideDockContainerPrivate::forwardEventToDockContainer *)
Definition forwardEventToDockContainer (event : QEvent) (s : State) : State :=
  match dockContainer s with
  | Some DockContainer => callLifetime (HandleAutoHideWidgetEvent DockContainer event) s
  | None => s
  end.

(** CAutoHideDockContainer::~CAutoHideDockContainer, up to [delete d]: the
    QPointer to the side tab is null once the tab is deleted. *)
Definition destructor : M unit :=
  modify removeEventFilter ;;
  c0 <- gets dockContainer ;;
  match c0 with
  | Some _ =>
    c <- deref dockContainer ;;
    modify (callLifetime (ContainerRemoveAutoHideWidget c))
  | None => ret tt
  end ;;
  t0 <- gets (fun s => SideTab (d s)) ;;
  match t0 with
  | Some t =>
    modify (callLifetime (DeleteSideTab t)) ;;
    modify (fun s => withD (setSideTab None (d s)) s)
  | None => ret tt
  end.

Definition cleanupAndDelete : M unit :=
  dockWidget <- gets (fun s => DockWidget (d s)) ;;
  match dockWidget with
  | Some _ =>
    SideTab' <- deref (fun s => SideTab (d s)) ;;
    modify (callLifetime (TabRemoveFromSideBar SideTab')) ;;
    modify (callLifetime (TabSetParentNull SideTab')) ;;
    modify (call (TabHide SideTab'))
  | None => ret tt
  end ;;
  modify (fun s => withSuper (hide (super s)) s) ;;
  modify (callLifetime DeleteLater).

Definition moveContentsToParent : M unit :=
  cleanupAndDelete ;;
  w <- deref (fun s => DockWidget (d s)) ;;
  modify (callLifetime (DockWidgetSetDockAreaNull w)) ;;
  DockContainer <- deref dockContainer ;;
  area <- gets (fun s => SideTabBarArea (d s)) ;;
  w' <- deref (fun s => DockWidget (d s)) ;;
  modify (callLifetime (ContainerAddDockWidget DockContainer (getDockWidgetArea area) w')).

(** leaveEvent; Super::leaveEvent is QWidget::leaveEvent, which is empty. *)
Definition leaveEvent (event : QEvent) (s : State) : State :=
  let pos := mapFromGlobal (super s) (cursorPos (world s)) in
  if negb (contains (rect (super s)) pos)
  then forwardEventToDockContainer event s
  else s.

(** What can happen to a container between its construction and its
    clean-up: the public member functions and the event handlers the
    toolkit calls. *)
Inductive Operation : Type :=
| OpUpdateSize
| OpSetSize (Size' : Z)
| OpAddDockWidget (DockWidget' : DockWidgetPtr)
| OpToggleView (Enable : bool)
| OpCollapseView (Enable : bool)
| OpToggleCollapseState
| OpSideTabPressed
| OpEventFilter (watched : QObject) (event : QEvent)
| OpResizeEvent
| OpLeaveEvent (event : QEvent).

Definition runOperation (o : Operation) : M unit :=
  match o with
  | OpUpdateSize => modify updateSize
  | OpSetSize n => modify (setSize n)
  | OpAddDockWidget w => addDockWidget w
  | OpToggleView b => modify (toggleView b)
  | OpCollapseView b => collapseView b
  | OpToggleCollapseState => toggleCollapseState
  | OpSideTabPressed => sideTabPressed
  | OpEventFilter watched event => eventFilter watched event ;; ret tt
  | OpResizeEvent => resizeEvent
  | OpLeaveEvent event => modify (leaveEvent event)
  end.

Fixpoint runOperations (l : list Operation) : M unit :=
  match l with
  | [] => ret tt
  | o :: rest => runOperation o ;; runOperations rest
  end.

(** What the constructor sets up for good: the side of the container, its
    dock area, side tab, connection and layout, a dock widget, a resize
    handle on the edge that faces the content, and an application event
    filter that is installed exactly while the container is not hidden. *)
Definition settled (A : SideBarLocation) (a : AreaPtr) (t : TabPtr) (s : State) : Prop :=
  SideTabBarArea (d s) = A /\
  DockArea (d s) = Some a /\
  SideTab (d s) = Some t /\
  (exists w, DockWidget (d s) = Some w) /\
  (exists h, ResizeHandle (d s) = Some h /\
             handlePosition h = edgeFromSideTabBarArea A /\
             minResizeSize h = 64) /\
  (exists lay, Layout (d s) = Some lay /\
               items lay = if resizeHandleLayoutPosition A =? 0
                           then [ItemResizeHandle; ItemDockArea a]
                           else [ItemDockArea a; ItemResizeHandle]) /\
  pressedSlots s = [SlotToggleCollapseState] /\
  appEventFilter s = negb (hidden (super s)).

(** The far side of the content rectangle [R] keeps a strip of
    [ResizeMargin] that the widget [q] does not cover. *)
Definition leavesMargin (A : SideBarLocation) (R : QRect) (q : QWidget) : Prop :=
  match A with
  | SideBarTop => bottom (geometry q) <= bottom R - ResizeMargin
  | SideBarBottom => top R + ResizeMargin <= top (geometry q)
  | SideBarLeft => right (geometry q) <= right R - ResizeMargin
  | SideBarRight => left R + ResizeMargin <= left (geometry q)
  | SideBarNone => True
  end.

(** The extent of a size in the direction the container slides in: the
    height in a horizontal area, the width otherwise. *)
Definition slidingExtent (A : SideBarLocation) (sz : QSize) : Z :=
  if isHorizontalArea A then height sz else width sz.

(** The dock area [a] is inside a dock container in every world. *)
Definition anchored (a : AreaPtr) : Prop :=
  forall w : World, areaDockContainer w a <> None.

End Lifetime.

End Ads.

(* ================================================================= *)
(** ** A reference docking system *)

(** The smallest docking system that answers every query: the world is the
    list of calls made so far, oldest first.  There is one dock container
    (address 1) with an 800 x 600 content rectangle, dock widget 5 starts
    in dock area 7 (200 x 100), every other dock area is 100 x 30, and a
    dock widget is in the area it was added to last and not removed from
    since. *)
Module Reference.
Import Qt Ads.

Definition World : Type := list Call.

Definition areaAfter (w : DockWidgetPtr) (cur : option AreaPtr) (c : Call) : option AreaPtr :=
  match c with
  | AreaAddDockWidget a w' => if Nat.eqb w w' then Some a else cur
  | AreaRemoveDockWidget a w' =>
    match cur with
    | Some a' => if Nat.eqb w w' && Nat.eqb a a' then None else cur
    | None => None
    end
  | _ => cur
  end.

Definition tabHiddenAfter (t : TabPtr) (cur : bool) (c : Call) : bool :=
  match c with
  | TabShow t' => if Nat.eqb t t' then false else cur
  | TabHide t' => if Nat.eqb t t' then true else cur
  | _ => cur
  end.

Definition refTab (h : bool) : QWidget :=
  mkQWidget (mkQPoint 0 40) (mkQSize 24 80) (mkQSize 0 0) (mkQSize 16777215 16777215)
            h true (mkQPoint 0 0) false.

#[export] Instance refSystem : DockSystem World := {
  perform c w := w ++ [c];
  newSideTab _ := 40%nat;
  newDockArea _ _ _ := 20%nat;
  areaDockContainer _ _ := Some 1%nat;
  areaSize _ a := if Nat.eqb a 7 then mkQSize 200 100 else mkQSize 100 30;
  contentRect _ _ := rectOf 0 0 800 600;
  dockAreaWidget w dw :=
    fold_left (areaAfter dw) w (if Nat.eqb dw 5 then Some 7%nat else None);
  dockWidgetName _ _ := "dock"%string;
  isClosed _ _ := false;
  isRestoringState _ _ := false;
  tabWidget w t := refTab (fold_left (tabHiddenAfter t) w false);
  opaqueSplitterResize _ := true;
  freshResizeHandle := mkResizeHandle LeftEdge 0 1 false false;
  handleOrientation e :=
    match e with
    | LeftEdge | RightEdge => Horizontal
    | TopEdge | BottomEdge => Vertical
    end
}.

(** A fresh QFrame inside the dock container: Qt's initial child geometry,
    no size constraint beyond the defaults, parent shown at the origin. *)
Definition refBase : QWidget :=
  mkQWidget (mkQPoint 0 0) (mkQSize 100 30) (mkQSize 0 0) (mkQSize 16777215 16777215)
            false true (mkQPoint 0 0) false.

(** Containers to run the member functions on: [orphan] has neither a dock
    area nor a parent, [built dw area] is what the constructor returns in
    the empty world, [shown dw area] is that container expanded. *)
Definition orphan : Container World :=
  mkContainer refBase None EmptyString initPrivate [] false [].

Definition built (dw : DockWidgetPtr) (area : SideBarLocation) : Container World :=
  match construct dw area 1%nat refBase [] with
  | Some s => s
  | None => orphan
  end.

Definition shown (dw : DockWidgetPtr) (area : SideBarLocation) : Container World :=
  match collapseView false (built dw area) with
  | Some (_, s) => s
  | None => orphan
  end.

(** A press at (500, 300) on widget 9, a child of the dock container, and a
    press at (10, 50) on the same widget. *)
Definition childOfContainer : QObject := mkQObject [9%nat; 1%nat] false.
Definition pressAt (x y : Z) : QEvent := mkQEvent MouseButtonPress (mkQPoint x y).

End Reference.

(** The reference docking system with the lifetime calls recorded as well:
    the world is the list of all calls, the queries of [Reference] look at
    the calls they know, and the cursor rests at (500, 300). *)
Module Session.
Import Qt Ads.

#[local] Existing Instance Reference.refSystem.

Definition World : Type := list (Call + LifetimeCall).

Definition calls (w : World) : Reference.World :=
  flat_map (fun c => match c with inl c' => [c'] | inr _ => [] end) w.

#[export] Instance sessionSystem : DockSystem World := {
  perform c w := w ++ [inl c];
  newSideTab w := newSideTab (calls w);
  newDockArea w := newDockArea (calls w);
  areaDockContainer w := areaDockContainer (calls w);
  areaSize w := areaSize (calls w);
  contentRect w := contentRect (calls w);
  dockAreaWidget w := dockAreaWidget (calls w);
  dockWidgetName w := dockWidgetName (calls w);
  isClosed w := isClosed (calls w);
  isRestoringState w := isRestoringState (calls w);
  tabWidget w := tabWidget (calls w);
  opaqueSplitterResize w := opaqueSplitterResize (calls w);
  freshResizeHandle := Reference.refSystem.(freshResizeHandle);
  handleOrientation := Reference.refSystem.(handleOrientation)
}.

#[export] Instance sessionLifetime : DockLifetime World := {
  performLifetime c w := w ++ [inr c];
  cursorPos _ := mkQPoint 500 300
}.

Definition orphan : Container World :=
  mkContainer Reference.refBase None EmptyString initPrivate [] false [].

Definition built (dw : DockWidgetPtr) (area : SideBarLocation) : Container World :=
  match construct dw area 1%nat Reference.refBase [] with
  | Some s => s
  | None => orphan
  end.

Definition after (l : list Operation) (s : Container World) : Container World :=
  match runOperations l s with
  | Some (_, s') => s'
  | None => orphan
  end.


End Session.

(* ================================================================= *)
(** ** Properties *)

Import Qt Ads.

Section Geometry.

Context {World : Type} {DS : DockSystem World}.

Lemma qMin_min (a b : Z) : qMin a b = Z.min a b.
Proof.
  unfold qMin. destruct (Z.ltb_spec b a); lia.
Qed.

(** resize gives exactly the requested size when that size respects the
    widget's minimum and maximum size. *)
Lemma resize_exact (w h : Z) (q : QWidget) :
  width (minimumSize q) <= w <= width (maximumSize q) ->
  height (minimumSize q) <= h <= height (maximumSize q) ->
  size (resize w h q) = mkQSize w h.
Proof.
  intros Hw Hh. unfold resize, expandedTo, boundedTo. simpl. f_equal; lia.
Qed.

(** updateSize touches the geometry of the QFrame base and nothing else. *)
Lemma updateSize_frame (s : Container World) :
  exists q, updateSize s = withSuper q s /\
            hidden q = hidden (super s) /\
            ancestorsVisible q = ancestorsVisible (super s) /\
            raised q = raised (super s).
Proof.
  unfold updateSize.
  destruct (dockContainer s) as [c|].
  2:{ exists (super s). destruct s; auto. }
  destruct (sideBarLocation s); simpl;
    try (eexists; split; [reflexivity | simpl; auto]).
  exists (super s). destruct s; auto.
Qed.

Lemma updateSize_d (s : Container World) : d (updateSize s) = d s.
Proof. destruct (updateSize_frame s) as (q & -> & _). reflexivity. Qed.

Lemma updateSize_world (s : Container World) : world (updateSize s) = world s.
Proof. destruct (updateSize_frame s) as (q & -> & _). reflexivity. Qed.

Lemma updateSize_appEventFilter (s : Container World) :
  appEventFilter (updateSize s) = appEventFilter s.
Proof. destruct (updateSize_frame s) as (q & -> & _). reflexivity. Qed.

Lemma updateSize_dockContainer (s : Container World) :
  dockContainer (updateSize s) = dockContainer s.
Proof. destruct (updateSize_frame s) as (q & -> & _). reflexivity. Qed.

(** C1: updateSize.  Without a parent dock container nothing changes.  With
    a parent dock container whose content rectangle is R, only the QFrame
    base changes: at the top it is resized to (R.width, min(R.height - 30,
    tracked height)) and moved to R's top-left corner; at the bottom it gets
    the same size, stays at R's left edge and its bottom row is R's bottom
    row; at the left it is resized to (min(tracked width, R.width - 30),
    R.height) and moved to R's top-left corner; at the right it gets the
    same size, stays at R's top edge and its right column is R's right
    column. *)
Theorem updateSize_places_widget (s : Container World) :
  (dockContainer s = None -> updateSize s = s) /\
  (forall c, dockContainer s = Some c ->
     let R := contentRect (world s) c in
     let tracked := Size (d s) in
     let s' := updateSize s in
     s' = withSuper (super s') s /\
     match sideBarLocation s with
     | SideBarTop =>
       super s' = move (topLeft R)
                    (resize (rwidth R) (Z.min (rheight R - 30) (height tracked)) (super s))
     | SideBarBottom =>
       exists p,
       super s' = move p
                    (resize (rwidth R) (Z.min (rheight R - 30) (height tracked)) (super s)) /\
       px p = left R /\
       bottom (geometry (super s')) = bottom R
     | SideBarLeft =>
       super s' = move (topLeft R)
                    (resize (Z.min (width tracked) (rwidth R - 30)) (rheight R) (super s))
     | SideBarRight =>
       exists p,
       super s' = move p
                    (resize (Z.min (width tracked) (rwidth R - 30)) (rheight R) (super s)) /\
       py p = top R /\
       right (geometry (super s')) = right R
     | SideBarNone => s' = s
     end).
Proof.
  split.
  - intros H. unfold updateSize. now rewrite H.
  - intros c H R tracked s'.
    split.
    { subst s'. destruct (updateSize_frame s) as (q & -> & _). reflexivity. }
    subst s'. unfold updateSize. rewrite H. fold R. fold tracked.
    unfold ResizeMargin. rewrite !qMin_min.
    destruct (sideBarLocation s); simpl; try reflexivity.
    + eexists. split; [reflexivity|]. split; [reflexivity|].
      unfold right. simpl. lia.
    + eexists. split; [reflexivity|]. split; [reflexivity|].
      unfold bottom. simpl. lia.
Qed.

(** C2: setSize(s) stores s as the height of the tracked size in a
    horizontal area (top, bottom and any location that is none of the four
    sides) and as its width at the left and the right, keeps the other
    component, and then runs updateSize. *)
Theorem setSize_tracks_and_updates (n : Z) (s : Container World) :
  let tracked := Size (d s) in
  let tracked' :=
    match sideBarLocation s with
    | SideBarLeft | SideBarRight => mkQSize n (height tracked)
    | SideBarTop | SideBarBottom | SideBarNone => mkQSize (width tracked) n
    end in
  setSize n s = updateSize (withD (setSizeField tracked' (d s)) s) /\
  Size (d (setSize n s)) = tracked'.
Proof.
  intros tracked tracked'.
  assert (E : setSize n s = updateSize (withD (setSizeField tracked' (d s)) s)).
  { unfold setSize, isHorizontal, tracked', tracked, sideBarLocation.
    destruct (SideTabBarArea (d s)); reflexivity. }
  split; [exact E|].
  rewrite E, updateSize_d. reflexivity.
Qed.

End Geometry.

Section Behaviour.

Context {World : Type} {DS : DockSystem World}.

Local Notation "'State'" := (Container World).

(** Unfolds the monadic plumbing of a member function. *)
Ltac run := unfold bind, modify, gets, deref, ret; cbn [fst snd].

Lemma addDockWidget_run (w : DockWidgetPtr) (s : State) (a : AreaPtr) (t : TabPtr) :
  DockArea (d s) = Some a ->
  SideTab (d s) = Some t ->
  let w1 := worldAfterRelease s a t w in
  let tracked := match takenFrom s a t w with
                 | Some oa => size_add (areaSize w1 oa) (mkQSize 16 16)
                 | None => Size (d s)
                 end in
  let w2 := match takenFrom s a t w with
            | Some oa => perform (AreaRemoveDockWidget oa w) w1
            | None => w1
            end in
  addDockWidget w s =
  Some (tt, updateSize
              (withWorld (perform (AreaAddDockWidget a w) w2)
                 (withD (setSizeField tracked (setDockWidget (Some w) (d s))) s))).
Proof.
  intros Ha Ht. unfold takenFrom, worldAfterRelease.
  unfold addDockWidget. run.
  destruct s as [q par nm p sl f wd]. destruct p as [da dwi loc lay rh sz st].
  cbn in Ha, Ht. subst da st.
  destruct dwi as [old|]; cbn;
    (destruct (dockAreaWidget _ w) as [oa|]; cbn;
     [destruct (isRestoringState _ w); cbn|]; reflexivity).
Qed.

(** C7: addDockWidget(w) on a container with its internal dock area and its
    side tab.  The calls on the docking system are, in this order: the
    removal of the dock widget held so far (if any) from the internal dock
    area, the attachment of w to the side tab, the removal of w from the
    dock area it is in at that point if the dock manager is not restoring
    state, and the addition of w to the internal dock area.  w becomes the
    current dock widget; the tracked size becomes the size of the old dock
    area plus (16, 16) when w is taken out of one and stays as it is
    otherwise; nothing else of the private data changes, and the result is
    the updateSize of the state so obtained. *)
Theorem addDockWidget_sequence (w : DockWidgetPtr) (s : State) (a : AreaPtr) (t : TabPtr) :
  DockArea (d s) = Some a ->
  SideTab (d s) = Some t ->
  exists s1,
    addDockWidget w s = Some (tt, updateSize s1) /\
    world s1 =
      fold_left (fun wd c => perform c wd)
        ((match DockWidget (d s) with
          | Some old => [AreaRemoveDockWidget a old]
          | None => []
          end) ++
         [TabSetDockWidget t w] ++
         (match takenFrom s a t w with
          | Some oa => [AreaRemoveDockWidget oa w]
          | None => []
          end) ++
         [AreaAddDockWidget a w])
        (world s) /\
    DockWidget (d s1) = Some w /\
    Size (d s1) =
      match takenFrom s a t w with
      | Some oa => size_add (areaSize (worldAfterRelease s a t w) oa) (mkQSize 16 16)
      | None => Size (d s)
      end /\
    d s1 = setSizeField (Size (d s1)) (setDockWidget (Some w) (d s)) /\
    super s1 = super s /\
    appEventFilter s1 = appEventFilter s /\
    pressedSlots s1 = pressedSlots s.
Proof.
  intros Ha Ht.
  eexists. split; [apply (addDockWidget_run w s a t Ha Ht)|].
  cbn. unfold worldAfterRelease.
  repeat split.
  destruct (DockWidget (d s)); cbn; destruct (takenFrom s a t w); reflexivity.
Qed.

Lemma collapseView_true_run (s : State) (t : TabPtr) :
  SideTab (d s) = Some t ->
  collapseView true s =
  Some (tt, call (TabUpdateStyle t) (removeEventFilter (withSuper (hide (super s)) s))).
Proof.
  intros Ht. unfold collapseView. run.
  destruct s as [q par nm p sl f wd]. cbn in *. rewrite Ht. reflexivity.
Qed.

Lemma collapseView_false_run (s : State) (t : TabPtr) (w : DockWidgetPtr)
    (h : CResizeHandle) (c : ContainerPtr) :
  SideTab (d s) = Some t ->
  DockWidget (d s) = Some w ->
  ResizeHandle (d s) = Some h ->
  dockContainer s = Some c ->
  collapseView false s =
  Some (tt,
        call (TabUpdateStyle t)
          (installEventFilter
             (call (SetDockWidgetFocused w)
                (withSuper (show (raise (super (updateSize s))))
                   (withD (setResizeHandle
                             (Some (setMaxResizeSize
                                      (resizeLimit h (contentRect (world s) c)) h))
                             (d s))
                      (updateSize s)))))).
Proof.
  intros Ht Hw Hh Hc. unfold collapseView, updateResizeHandleSizeLimitMax. run.
  rewrite updateSize_dockContainer, Hc, updateSize_d, Hh. cbn.
  rewrite !updateSize_d, Hw. cbn.
  rewrite ?updateSize_d, Ht, !updateSize_world. reflexivity.
Qed.

(** Evaluates a member function on a state whose pointers are known from
    equations in the context. *)
Ltac known_pointers :=
  repeat match goal with
         | H : _ = Some _ |- _ => rewrite H
         | H : _ = None |- _ => rewrite H
         end.
Ltac evaluate :=
  run;
  repeat (progress (cbn;
                    rewrite ?updateSize_dockContainer, ?updateSize_d, ?updateSize_world;
                    try known_pointers)).

(** collapseView returns only if the pointers it goes through are set. *)
Lemma collapseView_returns (e : bool) (s s' : State) (u : unit) :
  collapseView e s = Some (u, s') ->
  exists t, SideTab (d s) = Some t /\
  (e = false ->
   exists w h c, DockWidget (d s) = Some w /\ ResizeHandle (d s) = Some h /\
                 dockContainer s = Some c).
Proof.
  intros H.
  destruct (SideTab (d s)) as [t|] eqn:Ht; destruct e;
    try (destruct (dockContainer s) as [c|] eqn:Hc;
         destruct (ResizeHandle (d s)) as [h|] eqn:Hh;
         destruct (DockWidget (d s)) as [w|] eqn:Hw);
    try (exists t; split; [reflexivity|]; intros E;
         first [discriminate E | now exists w, h, c]);
    exfalso; revert H; unfold collapseView, updateResizeHandleSizeLimitMax;
    evaluate; discriminate.
Qed.

(** C4: collapseView.  With [true] the container is hidden and the
    application event filter removed.  With [false] the geometry is
    recomputed by updateSize, the resize handle gets its new maximum, the
    container is raised and shown, its dock widget gets the focus and the
    application event filter is installed.  Either way the style of the side
    tab is updated last, and whenever collapseView returns the application
    event filter is installed exactly when the container is not hidden. *)
Theorem collapseView_filter_follows_visibility (s : State) (t : TabPtr)
    (Ht : SideTab (d s) = Some t) :
  (exists s',
     collapseView true s = Some (tt, s') /\
     super s' = hide (super s) /\
     hidden (super s') = true /\
     appEventFilter s' = false /\
     d s' = d s /\
     world s' = perform (TabUpdateStyle t) (world s)) /\
  (forall w h c,
     DockWidget (d s) = Some w ->
     ResizeHandle (d s) = Some h ->
     dockContainer s = Some c ->
     exists s',
       collapseView false s = Some (tt, s') /\
       super s' = show (raise (super (updateSize s))) /\
       hidden (super s') = false /\
       raised (super s') = true /\
       d s' = setResizeHandle
                (Some (setMaxResizeSize (resizeLimit h (contentRect (world s) c)) h))
                (d s) /\
       world s' = perform (TabUpdateStyle t) (perform (SetDockWidgetFocused w) (world s)) /\
       appEventFilter s' = true) /\
  (forall e s1 s',
     collapseView e s1 = Some (tt, s') ->
     appEventFilter s' = negb (hidden (super s'))).
Proof.
  split; [|split].
  - eexists. split; [apply (collapseView_true_run s t Ht)|].
    cbn. repeat split.
  - intros w h c Hw Hh Hc.
    eexists. split; [apply (collapseView_false_run s t w h c Ht Hw Hh Hc)|].
    cbn. rewrite ?updateSize_d, ?updateSize_world. repeat split.
  - intros e s1 s' H.
    destruct (collapseView_returns e s1 s' tt H) as (t1 & Ht1 & Hrest).
    destruct e.
    + rewrite (collapseView_true_run s1 t1 Ht1) in H.
      injection H as <-. reflexivity.
    + destruct (Hrest eq_refl) as (w & h & c & Hw & Hh & Hc).
      rewrite (collapseView_false_run s1 t1 w h c Ht1 Hw Hh Hc) in H.
      injection H as <-. reflexivity.
Qed.

Lemma runSlots_single (sl : Slot) (s : State) : runSlots [sl] s = runSlot sl s.
Proof.
  cbn. run. destruct (runSlot sl s) as [[[] s']|]; reflexivity.
Qed.

(** The constructor in two phases around its call of addDockWidget. *)
Lemma construct_phases (dw : DockWidgetPtr) (area : SideBarLocation)
    (parent : ContainerPtr) (base : QWidget) (w0 : World) :
  construct dw area parent base w0 =
  match addDockWidget dw (configured dw area parent base w0) with
  | Some (_, s) => completion area parent s
  | None => None
  end.
Proof.
  unfold construct, constructorBody, onLayout, onResizeHandle. run.
  cbn -[addDockWidget].
  change (addDockWidget dw _) with (addDockWidget dw (configured dw area parent base w0)).
  destruct (addDockWidget dw (configured dw area parent base w0)) as [[[] s]|];
    [|reflexivity].
  unfold completion. run. cbn.
  destruct (DockArea (d s)); [|reflexivity]. cbn.
  destruct (Layout (d s)); reflexivity.
Qed.

(** The constructor always returns; its result is the configured container
    after addDockWidget, registered, with the dock area and the resize
    handle in its layout. *)
Lemma construct_run (dw : DockWidgetPtr) (area : SideBarLocation)
    (parent : ContainerPtr) (base : QWidget) (w0 : World) :
  let c := configured dw area parent base w0 in
  let t := newSideTab w0 in
  let a := newDockArea (perform CreateDockWidgetSideTab w0) dw parent in
  exists s1 lay,
    addDockWidget dw c = Some (tt, updateSize s1) /\
    d s1 = setSizeField (Size (d s1)) (setDockWidget (Some dw) (d c)) /\
    Size (d s1) = match takenFrom c a t dw with
                  | Some oa => size_add (areaSize (worldAfterRelease c a t dw) oa)
                                        (mkQSize 16 16)
                  | None => Size (d c)
                  end /\
    super s1 = super c /\
    pressedSlots s1 = pressedSlots c /\
    appEventFilter s1 = appEventFilter c /\
    Layout (d c) = Some lay /\
    construct dw area parent base w0 =
    Some (withD (setLayout
                   (Some (insertWidget (resizeHandleLayoutPosition area) ItemResizeHandle
                            (addWidget (ItemDockArea a) lay)))
                   (d s1))
            (call (RegisterAutoHideWidget parent) (updateSize s1))).
Proof.
  intros c t a.
  pose proof (addDockWidget_run dw c a t eq_refl eq_refl) as H. cbn zeta in H.
  eexists. eexists.
  split; [exact H|].
  split; [reflexivity|]. split; [reflexivity|]. split; [reflexivity|].
  split; [reflexivity|]. split; [reflexivity|]. split; [reflexivity|].
  rewrite construct_phases. fold c. rewrite H.
  unfold completion. rewrite updateSize_d. reflexivity.
Qed.

(** C3: the side tab's pressed signal is connected to toggleCollapseState by
    the constructor, and to nothing else; pressing the tab then runs
    toggleCollapseState, which is collapseView(isVisible()).  On a visible
    container it collapses (the container ends up hidden, the event filter
    removed); on a container that is not visible it expands (the container
    ends up shown, the event filter installed). *)
Theorem sideTab_press_toggles (s : State) (t : TabPtr)
    (Ht : SideTab (d s) = Some t) :
  (forall dw area parent base w0 s0,
     construct dw area parent base w0 = Some s0 ->
     pressedSlots s0 = [SlotToggleCollapseState]) /\
  (pressedSlots s = [SlotToggleCollapseState] ->
   sideTabPressed s = toggleCollapseState s) /\
  toggleCollapseState s = collapseView (isVisible (super s)) s /\
  (isVisible (super s) = true ->
   exists s', toggleCollapseState s = Some (tt, s') /\
              collapseView true s = Some (tt, s') /\
              hidden (super s') = true /\ appEventFilter s' = false) /\
  (forall w h c,
     DockWidget (d s) = Some w ->
     ResizeHandle (d s) = Some h ->
     dockContainer s = Some c ->
     isVisible (super s) = false ->
     exists s', toggleCollapseState s = Some (tt, s') /\
                collapseView false s = Some (tt, s') /\
                hidden (super s') = false /\ appEventFilter s' = true).
Proof.
  assert (E : toggleCollapseState s = collapseView (isVisible (super s)) s)
    by reflexivity.
  split; [|split; [|split; [exact E|split]]].
  - intros dw area parent base w0 s0 H.
    destruct (construct_run dw area parent base w0)
      as (s1 & lay & _ & _ & _ & _ & Hp & _ & _ & Hc).
    rewrite Hc in H. injection H as <-.
    destruct (updateSize_frame s1) as (q & -> & _). exact Hp.
  - intros Hs. unfold sideTabPressed. run. rewrite Hs.
    apply runSlots_single.
  - intros Hv. rewrite E, Hv, (collapseView_true_run s t Ht).
    eexists. repeat split.
  - intros w h c Hw Hh Hc Hv.
    rewrite E, Hv, (collapseView_false_run s t w h c Ht Hw Hh Hc).
    eexists. repeat split.
Qed.

(** C5: toggleView.  With [false] the side tab is hidden, the container is
    hidden and the application event filter is removed.  With [true] the
    side tab is shown and nothing else happens: the container's own widget
    state, and with it its visibility, is what it was.  Without a side tab
    only the part on the container remains. *)
Theorem toggleView_tab_and_container (s : State) :
  (forall t, SideTab (d s) = Some t ->
     (world (toggleView false s) = perform (TabHide t) (world s) /\
      super (toggleView false s) = hide (super s) /\
      hidden (super (toggleView false s)) = true /\
      appEventFilter (toggleView false s) = false /\
      d (toggleView false s) = d s) /\
     (toggleView true s = call (TabShow t) s /\
      world (toggleView true s) = perform (TabShow t) (world s) /\
      super (toggleView true s) = super s /\
      hidden (super (toggleView true s)) = hidden (super s) /\
      appEventFilter (toggleView true s) = appEventFilter s /\
      d (toggleView true s) = d s)) /\
  (SideTab (d s) = None ->
   toggleView true s = s /\
   toggleView false s = removeEventFilter (withSuper (hide (super s)) s)).
Proof.
  split.
  - intros t Ht. unfold toggleView. rewrite Ht. cbn. repeat split.
  - intros Ht. unfold toggleView. rewrite Ht. split; reflexivity.
Qed.

(** The loop over the parents finds the dock container exactly when it is
    somewhere on the chain. *)
Lemma walkParents_spec (Container : option ContainerPtr) (chain : list ObjPtr)
    (acc : bool) :
  walkParents Container chain acc =
  acc || belowContainer Container (mkQObject chain false).
Proof.
  unfold belowContainer. cbn [widgetChain].
  revert acc. induction chain as [|w chain IH]; intros acc; cbn [walkParents existsb].
  - destruct Container; now rewrite orb_false_r.
  - rewrite IH. destruct Container as [c|]; [|reflexivity].
    destruct (Nat.eqb w c), acc; reflexivity.
Qed.

Lemma belowContainer_chain (Container : option ContainerPtr) (watched : QObject) :
  belowContainer Container (mkQObject (widgetChain watched) false) =
  belowContainer Container watched.
Proof. reflexivity. Qed.

(** On a widget of non-negative size, [hits] is the usual test against the
    widget's rectangle on the screen. *)
Lemma hits_spec (q : QWidget) (g : QPoint) :
  0 <= width (size q) -> 0 <= height (size q) ->
  hits q g = true <->
  (px (parentOrigin q) + px (pos q) <= px g < px (parentOrigin q) + px (pos q) + width (size q)) /\
  (py (parentOrigin q) + py (pos q) <= py g < py (parentOrigin q) + py (pos q) + height (size q)).
Proof.
  intros Hw Hh. unfold hits, contains, rect, rectOf, mapFromGlobal. cbn.
  repeat match goal with
         | |- context [?a <? ?b] => destruct (Z.ltb_spec a b)
         end; cbn; split; intros; try discriminate; try reflexivity; lia.
Qed.

(** The mouse button press branch of eventFilter, evaluated. *)
Lemma eventFilter_press_run (watched : QObject) (event : QEvent) (s : State) (t : TabPtr) :
  evType event = MouseButtonPress ->
  SideTab (d s) = Some t ->
  eventFilter watched event s =
  if belowContainer (dockContainer s) watched
     && negb (hits (super s) (globalPosition event))
     && negb (hits (tabWidget (world s) t) (globalPosition event))
  then Some (false, call (TabUpdateStyle t) (removeEventFilter (withSuper (hide (super s)) s)))
  else Some (false, s).
Proof.
  intros He Ht. unfold eventFilter. rewrite He. run.
  rewrite walkParents_spec, belowContainer_chain. cbn [orb].
  destruct (belowContainer (dockContainer s) watched); cbn; [|reflexivity].
  fold (hits (super s) (globalPosition event)).
  destruct (hits (super s) (globalPosition event)); cbn; [reflexivity|].
  rewrite Ht.
  fold (hits (tabWidget (world s) t) (globalPosition event)).
  destruct (hits (tabWidget (world s) t) (globalPosition event)); cbn; [reflexivity|].
  pose proof (collapseView_true_run s t Ht) as H. unfold collapseView in H.
  revert H. run. cbn. rewrite Ht. reflexivity.
Qed.

(** C6: a mouse button press seen by the event filter of a container that
    has its side tab.  The filter returns false.  It collapses the container
    (collapseView(true)) when the watched object is the parent dock container
    or a widget below it and the press falls neither on the container nor on
    the side tab, and leaves everything as it is otherwise.  So an installed
    filter is removed by the press only under these three conditions, and a
    press on the container or on the side tab changes nothing. *)
Theorem eventFilter_press_collapses_outside (watched : QObject) (event : QEvent)
    (s : State) (t : TabPtr) :
  evType event = MouseButtonPress ->
  SideTab (d s) = Some t ->
  let below := belowContainer (dockContainer s) watched in
  let onContainer := hits (super s) (globalPosition event) in
  let onTab := hits (tabWidget (world s) t) (globalPosition event) in
  exists s',
    eventFilter watched event s = Some (false, s') /\
    (if below && negb onContainer && negb onTab
     then collapseView true s = Some (tt, s')
     else s' = s) /\
    (appEventFilter s = true -> appEventFilter s' = false ->
     below = true /\ onContainer = false /\ onTab = false) /\
    (hidden (super s) = false -> hidden (super s') = true ->
     below = true /\ onContainer = false /\ onTab = false) /\
    (onContainer = true \/ onTab = true -> s' = s).
Proof.
  intros He Ht below onContainer onTab.
  rewrite (eventFilter_press_run watched event s t He Ht).
  fold below. fold onContainer. fold onTab.
  destruct below, onContainer, onTab; cbn [andb negb];
    eexists; (split; [reflexivity|]);
    (split; [first [reflexivity | apply (collapseView_true_run s t Ht)]|]);
    repeat split; cbn; try congruence;
    try (intros [E|E]; discriminate E).
Qed.

(** C8: saveState on a container that has its dock widget appends one
    element to what the writer holds: the start of a Widget element, the
    attributes Name (the object name of the dock widget), Closed (1 when the
    dock widget is closed, 0 when not) and Size (the tracked height in a
    horizontal area, the tracked width at the left and the right), and the
    end of the element. *)
Theorem saveState_writes_widget_element (st : State) (w : DockWidgetPtr)
    (out : list XmlToken) :
  DockWidget (d st) = Some w ->
  saveState st out =
  Some (out ++
        [StartElement "Widget";
         Attribute "Name" (dockWidgetName (world st) w);
         Attribute "Closed" (if isClosed (world st) w then "1" else "0");
         Attribute "Size"
           (number (match sideBarLocation st with
                    | SideBarTop | SideBarBottom => height (Size (d st))
                    | SideBarLeft | SideBarRight => width (Size (d st))
                    | SideBarNone => height (Size (d st))
                    end));
         EndElement]).
Proof.
  intros Hw. unfold saveState. rewrite Hw.
  rewrite <- !app_assoc. cbn [app].
  unfold isHorizontal, sideBarLocation.
  destruct (isClosed (world st) w), (SideTabBarArea (d st)); reflexivity.
Qed.

(** C9, as the constructor has it: the new container is hidden, its
    sideBarLocation() is the area argument, its resize handle has minimum
    resize size 64 and sits on the edge opposite to the area, and the layout
    holds the resize handle at position 0 for the bottom and the right and
    at position 1 for the top and the left.  The tracked size is the size of
    the new internal dock area unless the dock widget comes out of a dock
    area while the dock manager is not restoring state: then it is the size
    of that dock area plus (16, 16). *)
Theorem construct_initial_state (dw : DockWidgetPtr) (A : SideBarLocation)
    (parent : ContainerPtr) (base : QWidget) (w0 : World) :
  let t := newSideTab w0 in
  let wT := perform CreateDockWidgetSideTab w0 in
  let a := newDockArea wT dw parent in
  let wA := perform (AreaSetAutoHideDockContainer a)
              (perform (AreaSetObjectName a "autoHideDockArea")
                 (perform (NewDockAreaWidget dw parent) wT)) in
  let wS := perform (TabSetDockWidget t dw) wA in
  exists s,
    construct dw A parent base w0 = Some s /\
    hidden (super s) = true /\
    isVisible (super s) = false /\
    sideBarLocation s = A /\
    DockArea (d s) = Some a /\
    DockWidget (d s) = Some dw /\
    SideTab (d s) = Some t /\
    Size (d s) =
      match dockAreaWidget wS dw with
      | Some oa => if isRestoringState wS dw then areaSize wA a
                   else size_add (areaSize wS oa) (mkQSize 16 16)
      | None => areaSize wA a
      end /\
    (exists h, ResizeHandle (d s) = Some h /\
               minResizeSize h = 64 /\
               handlePosition h = match A with
                                  | SideBarTop => BottomEdge
                                  | SideBarBottom => TopEdge
                                  | SideBarLeft => RightEdge
                                  | SideBarRight => LeftEdge
                                  | SideBarNone => LeftEdge
                                  end) /\
    (exists lay, Layout (d s) = Some lay /\
                 items lay = match A with
                             | SideBarBottom | SideBarRight => [ItemResizeHandle; ItemDockArea a]
                             | SideBarTop | SideBarLeft => [ItemDockArea a; ItemResizeHandle]
                             | SideBarNone => [ItemResizeHandle; ItemDockArea a]
                             end).
Proof.
  intros t wT a wA wS.
  destruct (construct_run dw A parent base w0)
    as (s1 & lay & _ & Hd & Hsz & Hsup & _ & _ & Hlay & Hc).
  eexists. split; [exact Hc|].
  assert (Hh : hidden (super (updateSize s1)) = true).
  { destruct (updateSize_frame s1) as (q & E & Hq & _).
    rewrite E. cbn. rewrite Hq, Hsup. reflexivity. }
  cbn.
  split; [exact Hh|]. split; [unfold isVisible; now rewrite Hh|].
  unfold sideBarLocation. cbn. rewrite ?updateSize_d, Hd. cbn.
  split; [reflexivity|]. split; [reflexivity|]. split; [reflexivity|].
  split; [reflexivity|].
  split.
  { rewrite Hsz. unfold takenFrom, worldAfterRelease. cbn.
    fold t. fold wT. fold a. fold wA. fold wS.
    destruct (dockAreaWidget wS dw); [|reflexivity].
    destruct (isRestoringState wS dw); reflexivity. }
  split.
  { eexists. split; [reflexivity|]. split; [reflexivity|].
    destruct A; reflexivity. }
  eexists. split; [reflexivity|].
  injection Hlay as <-. destruct A; reflexivity.
Qed.

End Behaviour.

(* ================================================================= *)
(** ** The properties on the reference docking system *)

Section OnReference.

Import Reference.

(** updateSize on a container without parent, and on a container at the
    right of the 800 x 600 content rectangle: it ends at column 799. *)
Lemma updateSize_places_widget_witness :
  (dockContainer orphan = None /\ updateSize orphan = orphan) /\
  (dockContainer (built 6%nat SideBarRight) = Some 1%nat /\
   right (geometry (super (updateSize (built 6%nat SideBarRight)))) = 799).
Proof.
  split.
  - split; [reflexivity|].
    apply (proj1 (updateSize_places_widget (DS := refSystem) orphan)). reflexivity.
  - split; [reflexivity|].
    destruct (proj2 (updateSize_places_widget (DS := refSystem) (built 6%nat SideBarRight)) 1%nat ltac:(reflexivity))
      as (_ & p & _ & _ & H).
    exact H.
Defined.

(** Pressing the side tab of a freshly built container expands it. *)
Lemma sideTab_press_toggles_witness :
  SideTab (d (built 5%nat SideBarLeft)) = Some 40%nat /\
  sideTabPressed (built 5%nat SideBarLeft) = toggleCollapseState (built 5%nat SideBarLeft) /\
  exists s', toggleCollapseState (built 5%nat SideBarLeft) = Some (tt, s') /\
             collapseView false (built 5%nat SideBarLeft) = Some (tt, s') /\
             hidden (super s') = false /\ appEventFilter s' = true.
Proof.
  pose proof (sideTab_press_toggles (DS := refSystem) (built 5%nat SideBarLeft) 40%nat ltac:(reflexivity))
    as (_ & Hpress & _ & _ & Hexpand).
  split; [reflexivity|].
  split; [apply Hpress; reflexivity|].
  apply (Hexpand 5%nat
           (mkResizeHandle RightEdge 64 1 true false) 1%nat); reflexivity.
Defined.

(** Expanding a built container installs the event filter; collapsing it
    again removes it. *)
Lemma collapseView_filter_follows_visibility_witness :
  SideTab (d (built 5%nat SideBarLeft)) = Some 40%nat /\
  (exists s', collapseView true (built 5%nat SideBarLeft) = Some (tt, s') /\
              hidden (super s') = true /\ appEventFilter s' = false) /\
  (exists s', collapseView false (built 5%nat SideBarLeft) = Some (tt, s') /\
              hidden (super s') = false /\ appEventFilter s' = true).
Proof.
  pose proof (collapseView_filter_follows_visibility (DS := refSystem) (built 5%nat SideBarLeft) 40%nat ltac:(reflexivity))
    as ((s1 & H1 & _ & Hh1 & Hf1 & _) & Hfalse & _).
  split; [reflexivity|]. split.
  - exists s1. auto.
  - destruct (Hfalse 5%nat (mkResizeHandle RightEdge 64 1 true false) 1%nat
                ltac:(reflexivity) ltac:(reflexivity) ltac:(reflexivity))
      as (s2 & H2 & _ & Hh2 & _ & _ & _ & Hf2).
    exists s2. auto.
Defined.

(** toggleView on a built container and on one without a side tab. *)
Lemma toggleView_tab_and_container_witness :
  (SideTab (d (shown 5%nat SideBarLeft)) = Some 40%nat /\
   hidden (super (toggleView false (shown 5%nat SideBarLeft))) = true /\
   appEventFilter (toggleView false (shown 5%nat SideBarLeft)) = false /\
   super (toggleView true (built 5%nat SideBarLeft)) = super (built 5%nat SideBarLeft)) /\
  (SideTab (d orphan) = None /\ toggleView true orphan = orphan).
Proof.
  split.
  - destruct (proj1 (toggleView_tab_and_container (DS := refSystem) (shown 5%nat SideBarLeft)) 40%nat ltac:(reflexivity))
      as ((_ & _ & Hh & Hf & _) & _).
    destruct (proj1 (toggleView_tab_and_container (DS := refSystem) (built 5%nat SideBarLeft)) 40%nat ltac:(reflexivity))
      as (_ & _ & _ & Hs & _).
    split; [reflexivity|]. auto.
  - split; [reflexivity|].
    apply (proj2 (toggleView_tab_and_container (DS := refSystem) orphan)). reflexivity.
Defined.

(** A press in the middle of the dock container collapses the expanded
    container. *)
Lemma eventFilter_press_collapses_outside_witness :
  evType (pressAt 500 300) = MouseButtonPress /\
  SideTab (d (shown 5%nat SideBarLeft)) = Some 40%nat /\
  exists s',
    eventFilter childOfContainer (pressAt 500 300) (shown 5%nat SideBarLeft) = Some (false, s') /\
    collapseView true (shown 5%nat SideBarLeft) = Some (tt, s').
Proof.
  split; [reflexivity|]. split; [reflexivity|].
  destruct (eventFilter_press_collapses_outside (DS := refSystem) childOfContainer (pressAt 500 300)
              (shown 5%nat SideBarLeft) 40%nat ltac:(reflexivity) ltac:(reflexivity))
    as (s' & H1 & H2 & _).
  exists s'. split; [exact H1|exact H2].
Defined.

(** Adding dock widget 5, which sits in dock area 7, to a container that
    holds dock widget 6. *)
Lemma addDockWidget_sequence_witness :
  DockArea (d (built 6%nat SideBarTop)) = Some 20%nat /\
  SideTab (d (built 6%nat SideBarTop)) = Some 40%nat /\
  exists s1,
    addDockWidget 5%nat (built 6%nat SideBarTop) = Some (tt, updateSize s1) /\
    world s1 = world (built 6%nat SideBarTop) ++
               [AreaRemoveDockWidget 20%nat 6%nat; TabSetDockWidget 40%nat 5%nat;
                AreaRemoveDockWidget 7%nat 5%nat; AreaAddDockWidget 20%nat 5%nat] /\
    Size (d s1) = mkQSize 216 116.
Proof.
  split; [reflexivity|]. split; [reflexivity|].
  destruct (addDockWidget_sequence (DS := refSystem) 5%nat (built 6%nat SideBarTop) 20%nat 40%nat
              ltac:(reflexivity) ltac:(reflexivity))
    as (s1 & H1 & H2 & _ & H3 & _).
  exists s1. split; [exact H1|]. split; [exact H2|exact H3].
Defined.

(** saveState of a built container at the left: the Size attribute is the
    tracked width. *)
Lemma saveState_writes_widget_element_witness :
  DockWidget (d (built 5%nat SideBarLeft)) = Some 5%nat /\
  saveState (built 5%nat SideBarLeft) [] =
  Some [StartElement "Widget"; Attribute "Name" "dock"; Attribute "Closed" "0";
        Attribute "Size" "216"; EndElement].
Proof.
  split; [reflexivity|].
  exact (saveState_writes_widget_element (DS := refSystem) (built 5%nat SideBarLeft) 5%nat [] ltac:(reflexivity)).
Defined.

(** The tracked size of a new container is not always the size of its new
    internal dock area: dock widget 5 comes out of the 200 x 100 dock area 7,
    the container starts with 216 x 116, the new dock area 20 is 100 x 30. *)
Lemma construct_tracked_size_counterexample :
  exists s a,
    construct 5%nat SideBarLeft 1%nat refBase [] = Some s /\
    DockArea (d s) = Some a /\
    Size (d s) <> areaSize (world s) a /\
    Size (d s) <>
    areaSize (perform (AreaSetAutoHideDockContainer a)
                (perform (AreaSetObjectName a "autoHideDockArea")
                   (perform (NewDockAreaWidget 5%nat 1%nat)
                      (perform CreateDockWidgetSideTab [])))) a.
Proof.
  eexists. exists 20%nat.
  split; [vm_compute; reflexivity|].
  split; [reflexivity|].
  split; vm_compute; discriminate.
Qed.

End OnReference.

(* ================================================================= *)
(** ** Further properties of the geometry and the tracked size *)

Section MoreGeometry.

Context {World : Type} {DS : DockSystem World}.

Local Notation "'State'" := (Container World).

(** updateSize is idempotent: a second run in the same world finds the
    widget where the first one put it. *)
Theorem updateSize_idempotent (s : State) :
  updateSize (updateSize s) = updateSize s.
Proof.
  unfold updateSize at 1.
  rewrite updateSize_dockContainer, updateSize_world, updateSize_d.
  unfold sideBarLocation. rewrite updateSize_d. fold (sideBarLocation s).
  destruct (dockContainer s) as [c|] eqn:Hc; [|reflexivity].
  destruct (sideBarLocation s) eqn:Hl;
    unfold updateSize; rewrite Hc, Hl; reflexivity.
Qed.

(** After updateSize the container leaves a strip of 30 pixels of the
    content rectangle free on the side it grows towards, whatever the
    tracked size is, unless its own minimum size is larger than what is
    left. *)
Theorem updateSize_leaves_margin (s : State) (c : ContainerPtr) :
  dockContainer s = Some c ->
  let R := contentRect (world s) c in
  let A := sideBarLocation s in
  slidingExtent A (minimumSize (super s)) <=
    slidingExtent A (mkQSize (rwidth R) (rheight R)) - ResizeMargin ->
  leavesMargin A R (super (updateSize s)).
Proof.
  intros Hc R A. subst A. unfold updateSize. rewrite Hc. fold R.
  unfold slidingExtent, leavesMargin, ResizeMargin, rwidth, rheight.
  destruct (sideBarLocation s); cbn; rewrite ?qMin_min;
    unfold bottom, top, left, right, rwidth, rheight; cbn; lia.
Qed.

(** In the other direction the container spans the content rectangle, from
    edge to edge, when its size limits allow that size. *)
Theorem updateSize_spans_content (s : State) (c : ContainerPtr) :
  dockContainer s = Some c ->
  let R := contentRect (world s) c in
  let q := super (updateSize s) in
  width (minimumSize (super s)) <= rwidth R <= width (maximumSize (super s)) ->
  height (minimumSize (super s)) <= rheight R <= height (maximumSize (super s)) ->
  match sideBarLocation s with
  | SideBarTop | SideBarBottom =>
    left (geometry q) = left R /\ right (geometry q) = right R
  | SideBarLeft | SideBarRight =>
    top (geometry q) = top R /\ bottom (geometry q) = bottom R
  | SideBarNone => q = super s
  end.
Proof.
  intros Hc R q Hw Hh. subst q. unfold updateSize. rewrite Hc. fold R.
  unfold rwidth, rheight in *.
  destruct (sideBarLocation s); cbn; try reflexivity;
    unfold bottom, top, left, right, rwidth, rheight; cbn; lia.
Qed.

(** Of two setSize calls the last one wins: the geometry and the tracked
    size are those of the second call alone. *)
Theorem setSize_last_wins (m n : Z) (s : State) :
  setSize m (setSize n s) = setSize m s.
Proof.
  destruct s as [q par nm p sl f wd]. destruct p as [da dwi loc lay rh sz st].
  destruct q as [qp qs qmin qmax qh qa qo qr].
  unfold setSize, isHorizontal; cbn.
  destruct loc; cbn;
    unfold updateSize, dockContainer, sideBarLocation, findParent; cbn;
    (destruct da as [a|];
     [destruct (areaDockContainer wd a) eqn:E|destruct par]);
    cbn; rewrite ?E; cbn; reflexivity.
Qed.

End MoreGeometry.

(* ================================================================= *)
(** ** Further properties of the member functions *)

Section MoreBehaviour.

Context {World : Type} {DS : DockSystem World} {DL : DockLifetime World}.

Local Notation "'State'" := (Container World).

Ltac run := unfold bind, modify, gets, deref, ret; cbn [fst snd].

(** What setSize stores is what saveState writes: after setSize(n) the
    Size attribute of the saved element is n, on every side. *)
Theorem setSize_then_saveState (n : Z) (s : State) (w : DockWidgetPtr)
    (out : list XmlToken) :
  DockWidget (d s) = Some w ->
  saveState (setSize n s) out =
  Some (out ++
        [StartElement "Widget";
         Attribute "Name" (dockWidgetName (world s) w);
         Attribute "Closed" (if isClosed (world s) w then "1" else "0");
         Attribute "Size" (number n);
         EndElement]).
Proof.
  intros Hw. unfold saveState, setSize, isHorizontal.
  rewrite !updateSize_d, !updateSize_world.
  destruct (isHorizontalArea (SideTabBarArea (d s))) eqn:Hh; cbn;
    rewrite Hw, Hh; rewrite <- !app_assoc; cbn [app];
    destruct (isClosed (world s) w); reflexivity.
Qed.

(** A resize event outside a drag of the resize handle changes nothing: the
    tracked size only follows the handle. *)
Theorem resizeEvent_ignored_outside_drag (s : State) (h : CResizeHandle) :
  ResizeHandle (d s) = Some h ->
  isResizing h = false ->
  resizeEvent s = Some (tt, s).
Proof.
  intros Hh Hr. unfold resizeEvent. run. rewrite Hh, Hr. reflexivity.
Qed.


(** The three things eventFilter can do to the container: nothing,
    updateSize, or collapseView(true); it always passes the event on. *)
Lemma eventFilter_outcome (watched : QObject) (event : QEvent) (s s' : State) (r : bool) :
  eventFilter watched event s = Some (r, s') ->
  r = false /\
  (s' = s \/ s' = updateSize s \/ collapseView true s = Some (tt, s')).
Proof.
  unfold eventFilter.
  assert (C : forall k : bool,
            bind (collapseView true) (fun _ => ret k) s = Some (r, s') ->
            r = k /\ collapseView true s = Some (tt, s')).
  { intros k. run. destruct (collapseView true s) as [[[] s1]|]; [|discriminate].
    intros H. injection H as <- <-. auto. }
  destruct (evType event); run.
  - destruct (ResizeHandle (d s)) as [h|]; [|discriminate].
    destruct (isResizing h); cbn; intros H; injection H as <- <-; auto.
  - destruct (negb (walkParents (dockContainer s) (widgetChain watched) false));
      [intros H; injection H as <- <-; auto|].
    destruct (contains (rect (super s)) (mapFromGlobal (super s) (globalPosition event)));
      [intros H; injection H as <- <-; auto|].
    destruct (SideTab (d s)) as [t|]; [|discriminate].
    destruct (contains _ _); [intros H; injection H as <- <-; auto|].
    intros H. destruct (C false H) as [-> H']. auto.
  - destruct (isFloatingDockContainer watched).
    + intros H. destruct (C false H) as [-> H']. auto.
    + cbn. intros H; injection H as <- <-; auto.
  - intros H. destruct (C false H) as [-> H']. auto.
  - intros H; injection H as <- <-; auto.
  - intros H; injection H as <- <-; auto.
  - intros H; injection H as <- <-; auto.
Qed.

(** eventFilter never consumes an event, and it never opens the container:
    a hidden container stays hidden, a filter that is not installed stays
    so, and the private data is left alone. *)
Theorem eventFilter_passes_on_and_never_expands (watched : QObject) (event : QEvent)
    (s s' : State) (r : bool) :
  eventFilter watched event s = Some (r, s') ->
  r = false /\
  (hidden (super s) = true -> hidden (super s') = true) /\
  (appEventFilter s = false -> appEventFilter s' = false) /\
  d s' = d s.
Proof.
  intros H. destruct (eventFilter_outcome watched event s s' r H) as [-> [E|[E|E]]];
    (split; [reflexivity|]).
  - subst s'. auto.
  - subst s'. destruct (updateSize_frame s) as (q & -> & Hq & _). cbn.
    rewrite Hq. auto.
  - destruct (collapseView_returns true s s' tt E) as (t & Ht & _).
    rewrite (collapseView_true_run s t Ht) in E. injection E as <-. cbn. auto.
Qed.

(** [settled] only looks at the parts of the container that the operations
    leave alone or change in step. *)
Lemma settled_transfer (A : SideBarLocation) (a : AreaPtr) (t : TabPtr) (s s' : State) :
  settled A a t s ->
  SideTabBarArea (d s') = SideTabBarArea (d s) ->
  DockArea (d s') = DockArea (d s) ->
  SideTab (d s') = SideTab (d s) ->
  Layout (d s') = Layout (d s) ->
  pressedSlots s' = pressedSlots s ->
  (exists w, DockWidget (d s') = Some w) ->
  (forall h, ResizeHandle (d s) = Some h ->
     exists h', ResizeHandle (d s') = Some h' /\
                handlePosition h' = handlePosition h /\
                minResizeSize h' = minResizeSize h) ->
  appEventFilter s' = negb (hidden (super s')) ->
  settled A a t s'.
Proof.
  intros (H1 & H2 & H3 & H4 & (h & Hh & Hp & Hm) & H6 & H7 & H8) E1 E2 E3 E4 E5 Ew Eh Ef.
  unfold settled. rewrite E1, E2, E3, E4, E5.
  destruct (Eh h Hh) as (h' & Hh' & Hp' & Hm').
  repeat split; auto.
  exists h'. rewrite Hp', Hm'. auto.
Qed.

Lemma same_handle (s s' : State) :
  ResizeHandle (d s') = ResizeHandle (d s) ->
  forall h, ResizeHandle (d s) = Some h ->
    exists h', ResizeHandle (d s') = Some h' /\
               handlePosition h' = handlePosition h /\
               minResizeSize h' = minResizeSize h.
Proof. intros E h Hh. exists h. rewrite E. auto. Qed.

Lemma settled_updateSize (A : SideBarLocation) (a : AreaPtr) (t : TabPtr) (s : State) :
  settled A a t s -> settled A a t (updateSize s).
Proof.
  intros H. pose proof H as (_ & _ & _ & Hw & _ & _ & _ & Hf).
  destruct (updateSize_frame s) as (q & -> & Hq & _).
  apply (settled_transfer A a t s); auto.
  - apply same_handle. reflexivity.
  - cbn. now rewrite Hq.
Qed.

Lemma settled_collapseView (A : SideBarLocation) (a : AreaPtr) (t : TabPtr)
    (e : bool) (s s' : State) (u : unit) :
  settled A a t s -> collapseView e s = Some (u, s') -> settled A a t s'.
Proof.
  intros H E. pose proof H as (_ & _ & _ & Hw & _ & _ & _ & Hf).
  destruct u.
  destruct (collapseView_returns e s s' tt E) as (t1 & Ht1 & Hrest).
  destruct e.
  - rewrite (collapseView_true_run s t1 Ht1) in E. injection E as <-.
    apply (settled_transfer A a t s); auto. apply same_handle. reflexivity.
  - destruct (Hrest eq_refl) as (w & h & c & Hw' & Hh & Hc).
    rewrite (collapseView_false_run s t1 w h c Ht1 Hw' Hh Hc) in E.
    injection E as <-.
    apply (settled_transfer A a t s); cbn; rewrite ?updateSize_d; auto.
    + destruct (updateSize_frame s) as (q & -> & _). reflexivity.
    + intros h0 Hh0. rewrite Hh in Hh0. injection Hh0 as <-.
      eexists. split; [reflexivity|]. auto.
Qed.

(** Every operation keeps what the constructor has set up. *)
Lemma settled_runOperation (A : SideBarLocation) (a : AreaPtr) (t : TabPtr)
    (o : Operation) (s s' : State) (u : unit) :
  settled A a t s -> runOperation o s = Some (u, s') -> settled A a t s'.
Proof.
  intros H. pose proof H as (HA & Ha & Ht & Hw & (h & Hh & Hhp & Hhm) & Hl & Hp & Hf).
  destruct u. destruct o; cbn [runOperation].
  - run. intros E. injection E as <-. now apply settled_updateSize.
  - run. intros E. injection E as <-. unfold setSize.
    apply settled_updateSize.
    apply (settled_transfer A a t s); auto;
      try (destruct (isHorizontal s); reflexivity).
    + destruct (isHorizontal s); exact Hw.
    + apply same_handle. destruct (isHorizontal s); reflexivity.
    + destruct (isHorizontal s); exact Hf.
  - rewrite (addDockWidget_run DockWidget' s a t Ha Ht). intros E. injection E as <-.
    apply settled_updateSize.
    apply (settled_transfer A a t s); auto.
    + now exists DockWidget'.
    + apply same_handle. reflexivity.
  - run. intros E. injection E as <-. unfold toggleView. rewrite Ht.
    destruct Enable.
    + apply (settled_transfer A a t s); auto. apply same_handle. reflexivity.
    + apply (settled_transfer A a t s); auto. apply same_handle. reflexivity.
  - apply settled_collapseView. exact H.
  - apply settled_collapseView. exact H.
  - unfold sideTabPressed. run. rewrite Hp, runSlots_single.
    apply settled_collapseView. exact H.
  - run. destruct (eventFilter watched event s) as [[r s1]|] eqn:E; [|discriminate].
    intros E'. injection E' as <-.
    destruct (eventFilter_outcome watched event s s1 r E) as [_ [->|[->|E1]]].
    + exact H.
    + now apply settled_updateSize.
    + now apply (settled_collapseView A a t true s s1 tt).
  - unfold resizeEvent, updateResizeHandleSizeLimitMax. run. rewrite Hh.
    destruct (isResizing h).
    + unfold dockContainer. cbn. rewrite Ha.
      destruct (areaDockContainer (world s) a) as [c|]; [|discriminate].
      cbn. rewrite Hh.
      intros E. injection E as <-.
      apply (settled_transfer A a t s); auto.
      intros h0 Hh0. rewrite Hh in Hh0. injection Hh0 as <-.
      eexists. split; [reflexivity|]. auto.
    + intros E. injection E as <-. exact H.
  - run. intros E. injection E as <-.
    unfold leaveEvent, forwardEventToDockContainer.
    destruct (negb (contains _ _)); [|exact H].
    destruct (dockContainer s); [|exact H].
    apply (settled_transfer A a t s); auto. apply same_handle. reflexivity.
Qed.

Lemma settled_construct (dw : DockWidgetPtr) (A : SideBarLocation)
    (parent : ContainerPtr) (base : QWidget) (w0 : World) :
  exists s, construct dw A parent base w0 = Some s /\
            settled A (newDockArea (perform CreateDockWidgetSideTab w0) dw parent)
                    (newSideTab w0) s.
Proof.
  destruct (construct_run dw A parent base w0)
    as (s1 & lay & _ & Hd & _ & Hsup & Hp & Hf & Hlay & Hc).
  eexists. split; [exact Hc|].
  unfold settled. cbn. rewrite Hd. cbn.
  destruct (updateSize_frame s1) as (q & -> & Hq & _). cbn.
  rewrite Hp, Hf, Hq, Hsup. cbn.
  injection Hlay as <-.
  repeat split; eauto.
  eexists. split; [reflexivity|]. destruct A; reflexivity.
Qed.

Lemma settled_runOperations (A : SideBarLocation) (a : AreaPtr) (t : TabPtr)
    (ops : list Operation) (s s' : State) (u : unit) :
  settled A a t s -> runOperations ops s = Some (u, s') -> settled A a t s'.
Proof.
  revert s. induction ops as [|o ops IH]; intros s H0; cbn [runOperations]; run.
  - intros E. injection E as _ <-. exact H0.
  - destruct (runOperation o s) as [[u1 s1]|] eqn:E; [|discriminate].
    intros E'. apply (IH s1); [|exact E'].
    apply (settled_runOperation A a t o s s1 u1 H0 E).
Qed.

(** The invariant of a container in use: whatever sequence of member
    function calls and events follows the construction, the container stays
    on its side, keeps its dock area, side tab, layout and connection, has a
    dock widget and a resize handle on the edge facing the content, and the
    application event filter is installed exactly while the container is not
    hidden. *)
Theorem settled_after_operations (dw : DockWidgetPtr) (A : SideBarLocation)
    (parent : ContainerPtr) (base : QWidget) (w0 : World)
    (ops : list Operation) (s s' : State) :
  construct dw A parent base w0 = Some s ->
  runOperations ops s = Some (tt, s') ->
  settled A (newDockArea (perform CreateDockWidgetSideTab w0) dw parent)
          (newSideTab w0) s'.
Proof.
  intros Hc.
  destruct (settled_construct dw A parent base w0) as (s0 & Hc0 & H0).
  rewrite Hc in Hc0. injection Hc0 as <-.
  apply settled_runOperations. exact H0.
Qed.

Lemma settled_dockContainer (A : SideBarLocation) (a : AreaPtr) (t : TabPtr) (s : State) :
  settled A a t s -> anchored a -> exists c, dockContainer s = Some c.
Proof.
  intros (_ & Ha & _) Hanch. unfold dockContainer. rewrite Ha.
  destruct (areaDockContainer (world s) a) as [c|] eqn:E; [now exists c|].
  now destruct (Hanch (world s)).
Qed.

Lemma settled_collapseView_returns (A : SideBarLocation) (a : AreaPtr) (t : TabPtr)
    (e : bool) (s : State) :
  settled A a t s -> anchored a -> exists s', collapseView e s = Some (tt, s').
Proof.
  intros H Hanch.
  destruct (settled_dockContainer A a t s H Hanch) as (c & Hc).
  destruct H as (_ & _ & Ht & (w & Hw) & (h & Hh & _) & _).
  destruct e.
  - rewrite (collapseView_true_run s t Ht). eauto.
  - rewrite (collapseView_false_run s t w h c Ht Hw Hh Hc). eauto.
Qed.

(** On a settled container whose dock area is inside a dock container no
    operation goes through a null pointer. *)
Lemma settled_runOperation_returns (A : SideBarLocation) (a : AreaPtr) (t : TabPtr)
    (o : Operation) (s : State) :
  settled A a t s -> anchored a -> exists s', runOperation o s = Some (tt, s').
Proof.
  intros H Hanch.
  pose proof H as (HA & Ha & Ht & Hw & (h & Hh & Hhp & Hhm) & Hl & Hp & Hf).
  destruct o; cbn [runOperation]; try (run; eauto; fail).
  - rewrite (addDockWidget_run DockWidget' s a t Ha Ht). eauto.
  - now apply (settled_collapseView_returns A a t).
  - now apply (settled_collapseView_returns A a t).
  - unfold sideTabPressed. run. rewrite Hp, runSlots_single.
    now apply (settled_collapseView_returns A a t).
  - destruct (settled_collapseView_returns A a t true s H Hanch) as (s1 & E1).
    destruct (evType event) eqn:Ev.
    + unfold eventFilter. rewrite Ev. run. rewrite Hh.
      destruct (isResizing h); cbn; eauto.
    + run. rewrite (eventFilter_press_run watched event s t Ev Ht).
      destruct (_ && _); eauto.
    + unfold eventFilter. rewrite Ev. run.
      destruct (isFloatingDockContainer watched); [rewrite E1|]; cbn; eauto.
    + unfold eventFilter. rewrite Ev. run. rewrite E1. eauto.
    + unfold eventFilter. rewrite Ev. run. eauto.
    + unfold eventFilter. rewrite Ev. run. eauto.
    + unfold eventFilter. rewrite Ev. run. eauto.
  - destruct (settled_dockContainer A a t s H Hanch) as (c & Hc).
    unfold resizeEvent, updateResizeHandleSizeLimitMax. run. rewrite Hh.
    destruct (isResizing h); [|eauto].
    unfold dockContainer in *. rewrite Ha in Hc. cbn. rewrite Ha, Hc.
    cbn. rewrite Hh. eauto.
Qed.

Lemma settled_runOperations_returns (A : SideBarLocation) (a : AreaPtr) (t : TabPtr)
    (ops : list Operation) (s : State) :
  settled A a t s -> anchored a -> exists s', runOperations ops s = Some (tt, s').
Proof.
  intros H Hanch. revert s H.
  induction ops as [|o ops IH]; intros s H; cbn [runOperations]; run.
  - eauto.
  - destruct (settled_runOperation_returns A a t o s H Hanch) as (s1 & E).
    rewrite E. apply IH.
    apply (settled_runOperation A a t o s s1 tt H E).
Qed.

(** A container in use never goes through a null pointer: when its internal
    dock area is inside a dock container, the constructor and every
    sequence of member function calls and events after it return. *)
Theorem operations_never_dereference_null (dw : DockWidgetPtr) (A : SideBarLocation)
    (parent : ContainerPtr) (base : QWidget) (w0 : World) (ops : list Operation) :
  anchored (newDockArea (perform CreateDockWidgetSideTab w0) dw parent) ->
  exists s s',
    construct dw A parent base w0 = Some s /\
    runOperations ops s = Some (tt, s').
Proof.
  intros Hanch.
  destruct (settled_construct dw A parent base w0) as (s & Hc & H).
  destruct (settled_runOperations_returns A _ _ ops s H Hanch) as (s' & E).
  exists s, s'. auto.
Qed.

Lemma collapseView_visibility (e : bool) (s s' : State) :
  collapseView e s = Some (tt, s') ->
  hidden (super s') = e /\
  ancestorsVisible (super s') = ancestorsVisible (super s) /\
  appEventFilter s' = negb e.
Proof.
  intros E.
  destruct (collapseView_returns e s s' tt E) as (t1 & Ht1 & Hrest).
  destruct e.
  - rewrite (collapseView_true_run s t1 Ht1) in E. injection E as <-. cbn. auto.
  - destruct (Hrest eq_refl) as (w & h & c & Hw' & Hh & Hc).
    rewrite (collapseView_false_run s t1 w h c Ht1 Hw' Hh Hc) in E.
    injection E as <-. cbn.
    destruct (updateSize_frame s) as (q & -> & _ & Hq & _). cbn. auto.
Qed.

(** Pressing the side tab twice brings the container back: with visible
    ancestors the first press flips the container between hidden and shown
    and the second one flips it back, the event filter following.  Under a
    hidden ancestor the container never counts as visible, so every press
    expands it. *)
Theorem toggleCollapseState_twice (A : SideBarLocation) (a : AreaPtr) (t : TabPtr)
    (s : State) :
  settled A a t s ->
  anchored a ->
  (ancestorsVisible (super s) = true ->
   exists s1 s2,
     toggleCollapseState s = Some (tt, s1) /\
     toggleCollapseState s1 = Some (tt, s2) /\
     hidden (super s1) = negb (hidden (super s)) /\
     hidden (super s2) = hidden (super s) /\
     appEventFilter s2 = appEventFilter s) /\
  (ancestorsVisible (super s) = false ->
   exists s1,
     toggleCollapseState s = Some (tt, s1) /\
     hidden (super s1) = false /\ appEventFilter s1 = true).
Proof.
  intros H Hanch.
  pose proof H as (_ & _ & _ & _ & _ & _ & _ & Hf).
  assert (T : forall x : State, toggleCollapseState x = collapseView (isVisible (super x)) x)
    by reflexivity.
  split; intros Hav.
  - destruct (settled_collapseView_returns A a t (isVisible (super s)) s H Hanch)
      as (s1 & E1).
    pose proof (settled_collapseView A a t _ s s1 tt H E1) as H1.
    destruct (collapseView_visibility _ s s1 E1) as (Hh1 & Hav1 & _).
    destruct (settled_collapseView_returns A a t (isVisible (super s1)) s1 H1 Hanch)
      as (s2 & E2).
    destruct (collapseView_visibility _ s1 s2 E2) as (Hh2 & _ & Hf2).
    exists s1, s2. rewrite !T.
    split; [exact E1|]. split; [exact E2|].
    unfold isVisible in *. rewrite Hav1, Hav in *. rewrite andb_true_r in *.
    rewrite Hf, Hf2, Hh2, Hh1.
    destruct (hidden (super s)); auto.
  - destruct (settled_collapseView_returns A a t (isVisible (super s)) s H Hanch)
      as (s1 & E1).
    destruct (collapseView_visibility _ s s1 E1) as (Hh1 & _ & Hf1).
    exists s1. rewrite T. split; [exact E1|].
    unfold isVisible in *. rewrite Hav, andb_false_r in *. auto.
Qed.

(** The other events the filter sees.  The start of a drag of a floating
    widget, and a press on the title bar of a floating dock container,
    collapse the container.  A Resize event runs updateSize unless the
    resize handle is being dragged.  A press on the title bar of anything
    else, and every other event, leave the container alone. *)
Theorem eventFilter_other_events (watched : QObject) (event : QEvent)
    (s : State) (t : TabPtr) (h : CResizeHandle) :
  SideTab (d s) = Some t ->
  ResizeHandle (d s) = Some h ->
  let collapsed :=
    exists s', eventFilter watched event s = Some (false, s') /\
               collapseView true s = Some (tt, s') /\
               hidden (super s') = true /\ appEventFilter s' = false in
  match evType event with
  | FloatingWidgetDragStartEvent => collapsed
  | NonClientAreaMouseButtonPress =>
    if isFloatingDockContainer watched then collapsed
    else eventFilter watched event s = Some (false, s)
  | Resize =>
    eventFilter watched event s =
    Some (false, if isResizing h then s else updateSize s)
  | MouseButtonPress => True
  | Enter | Hide | OtherEvent => eventFilter watched event s = Some (false, s)
  end.
Proof.
  intros Ht Hh collapsed.
  assert (C : forall k : bool,
            bind (collapseView true) (fun _ => ret k) s =
            Some (k, call (TabUpdateStyle t)
                       (removeEventFilter (withSuper (hide (super s)) s)))).
  { intros k. run. rewrite (collapseView_true_run s t Ht). reflexivity. }
  destruct (evType event) eqn:Ev; subst collapsed; try exact I;
    unfold eventFilter; rewrite Ev; try reflexivity.
  - run. rewrite Hh. destruct (isResizing h); reflexivity.
  - destruct (isFloatingDockContainer watched); [|reflexivity].
    eexists. run. rewrite (collapseView_true_run s t Ht).
    repeat split.
  - eexists. rewrite C. rewrite (collapseView_true_run s t Ht). repeat split.
Qed.

Lemma destructor_run (s : State) :
  destructor s =
  Some (tt,
        let s1 := removeEventFilter s in
        let s2 := match dockContainer s with
                  | Some c => callLifetime (ContainerRemoveAutoHideWidget c) s1
                  | None => s1
                  end in
        match SideTab (d s) with
        | Some t => withD (setSideTab None (d s)) (callLifetime (DeleteSideTab t) s2)
        | None => s2
        end).
Proof.
  unfold destructor. run.
  destruct s as [q par nm p sl f wd]. destruct p as [da dwi loc lay rh sz st].
  unfold dockContainer, findParent. cbn.
  destruct da as [a|]; [destruct (areaDockContainer wd a) eqn:E|destruct par];
    cbn; rewrite ?E; cbn; destruct st as [t|]; reflexivity.
Qed.

(** The destructor never goes through a null pointer, whatever state the
    container is in; it removes the application event filter, takes the
    container off its dock container if there is one and deletes the side
    tab if there is one. *)
Theorem destructor_total (s : State) :
  exists s',
    destructor s = Some (tt, s') /\
    appEventFilter s' = false /\
    SideTab (d s') = None /\
    world s' =
      (let w1 := match dockContainer s with
                 | Some c => performLifetime (ContainerRemoveAutoHideWidget c) (world s)
                 | None => world s
                 end in
       match SideTab (d s) with
       | Some t => performLifetime (DeleteSideTab t) w1
       | None => w1
       end).
Proof.
  eexists. split; [apply destructor_run|].
  destruct (dockContainer s), (SideTab (d s)) eqn:E; cbn; auto.
Qed.

(** cleanupAndDelete hides the side tab and the container and schedules the
    deletion, but it leaves the application event filter as it is: called on
    an expanded container it leaves a hidden container whose filter is still
    installed, until the destructor removes it.  Without a dock widget the
    side tab is not touched. *)
Theorem cleanupAndDelete_keeps_filter (s : State) :
  (forall w t,
     DockWidget (d s) = Some w ->
     SideTab (d s) = Some t ->
     exists s',
       cleanupAndDelete s = Some (tt, s') /\
       hidden (super s') = true /\
       appEventFilter s' = appEventFilter s /\
       d s' = d s /\
       world s' =
         performLifetime DeleteLater
           (perform (TabHide t)
              (performLifetime (TabSetParentNull t)
                 (performLifetime (TabRemoveFromSideBar t) (world s)))) /\
       exists s'', destructor s' = Some (tt, s'') /\ appEventFilter s'' = false) /\
  (DockWidget (d s) = None ->
   cleanupAndDelete s =
   Some (tt, callLifetime DeleteLater (withSuper (hide (super s)) s))) /\
  (forall w, DockWidget (d s) = Some w -> SideTab (d s) = None ->
             cleanupAndDelete s = None).
Proof.
  split; [|split].
  - intros w t Hw Ht. unfold cleanupAndDelete. run. rewrite Hw. cbn. rewrite Ht.
    eexists. split; [reflexivity|]. cbn.
    repeat split.
    eexists. split; [apply destructor_run|].
    cbn. destruct (dockContainer _); rewrite Ht; reflexivity.
  - intros Hw. unfold cleanupAndDelete. run. rewrite Hw. reflexivity.
  - intros w Hw Ht. unfold cleanupAndDelete. run. rewrite Hw. cbn. rewrite Ht.
    reflexivity.
Qed.

(** moveContentsToParent cleans up and then puts the dock widget back into
    the parent dock container on the side the container was on (on the left
    for a container on no side).  It goes through a null pointer when the
    container has no dock widget, or no dock container at that point. *)
Theorem moveContentsToParent_same_side (s : State) :
  (forall w t,
     DockWidget (d s) = Some w ->
     SideTab (d s) = Some t ->
     let wC := performLifetime DeleteLater
                 (perform (TabHide t)
                    (performLifetime (TabSetParentNull t)
                       (performLifetime (TabRemoveFromSideBar t) (world s)))) in
     let wD := performLifetime (DockWidgetSetDockAreaNull w) wC in
     (forall c,
        dockContainer (withWorld wD s) = Some c ->
        exists s',
          moveContentsToParent s = Some (tt, s') /\
          world s' =
            performLifetime
              (ContainerAddDockWidget c
                 match sideBarLocation s with
                 | SideBarTop => TopDockWidgetArea
                 | SideBarBottom => BottomDockWidgetArea
                 | SideBarLeft => LeftDockWidgetArea
                 | SideBarRight => RightDockWidgetArea
                 | SideBarNone => LeftDockWidgetArea
                 end w) wD /\
          hidden (super s') = true /\
          d s' = d s) /\
     (dockContainer (withWorld wD s) = None -> moveContentsToParent s = None)) /\
  (DockWidget (d s) = None -> moveContentsToParent s = None).
Proof.
  destruct s as [q par nm p sl f wd]. destruct p as [da dwi loc lay rh sz st].
  unfold moveContentsToParent, cleanupAndDelete, sideBarLocation, dockContainer.
  run. cbn.
  split.
  - intros w t -> ->. cbn. split.
    + intros c Hc. rewrite Hc. eexists. split; [reflexivity|]. cbn.
      destruct loc; repeat split.
    + intros Hc. rewrite Hc. reflexivity.
  - intros ->. reflexivity.
Qed.

(** A leave event is passed to the dock container exactly when the cursor
    is outside the rectangle the container occupies on the screen (and
    there is a dock container); a leave event with the cursor still inside,
    as a drag of the resize handle can produce, is dropped. *)
Theorem leaveEvent_forwards_outside (event : QEvent) (s : State) :
  0 <= width (size (super s)) ->
  0 <= height (size (super s)) ->
  let g := cursorPos (world s) in
  let x0 := px (parentOrigin (super s)) + px (pos (super s)) in
  let y0 := py (parentOrigin (super s)) + py (pos (super s)) in
  let inside := (x0 <= px g < x0 + width (size (super s))) /\
                (y0 <= py g < y0 + height (size (super s))) in
  (inside -> leaveEvent event s = s) /\
  (~ inside ->
   leaveEvent event s =
   match dockContainer s with
   | Some c => callLifetime (HandleAutoHideWidgetEvent c event) s
   | None => s
   end).
Proof.
  intros Hw Hh g x0 y0 inside.
  pose proof (hits_spec (super s) g Hw Hh) as Hs. fold x0 y0 inside in Hs.
  unfold leaveEvent, forwardEventToDockContainer. fold g.
  fold (hits (super s) g).
  destruct (hits (super s) g); cbn.
  - split; [reflexivity|]. intros Hn. exfalso. apply Hn. now apply Hs.
  - split; [|reflexivity]. intros Hi. apply Hs in Hi. discriminate Hi.
Qed.

(** In a new container on one of the four sides the resize handle lies on
    the side of the dock area that its edge names: the layout runs from top
    to bottom for a handle on the top or bottom edge and from left to right
    for one on the left or right edge, and the handle comes first for the
    top and left edge and last for the bottom and right edge. *)
Theorem construct_handle_faces_content (dw : DockWidgetPtr) (A : SideBarLocation)
    (parent : ContainerPtr) (base : QWidget) (w0 : World) :
  A <> SideBarNone ->
  exists s h lay a,
    construct dw A parent base w0 = Some s /\
    ResizeHandle (d s) = Some h /\
    Layout (d s) = Some lay /\
    DockArea (d s) = Some a /\
    match handlePosition h with
    | TopEdge =>
      direction lay = TopToBottom /\ items lay = [ItemResizeHandle; ItemDockArea a]
    | BottomEdge =>
      direction lay = TopToBottom /\ items lay = [ItemDockArea a; ItemResizeHandle]
    | LeftEdge =>
      direction lay = LeftToRight /\ items lay = [ItemResizeHandle; ItemDockArea a]
    | RightEdge =>
      direction lay = LeftToRight /\ items lay = [ItemDockArea a; ItemResizeHandle]
    end.
Proof.
  intros HA.
  destruct (construct_run dw A parent base w0)
    as (s1 & lay & _ & Hd & _ & _ & _ & _ & Hlay & Hc).
  eexists. eexists. eexists. eexists.
  split; [exact Hc|]. cbn. rewrite Hd. cbn.
  split; [reflexivity|]. split; [reflexivity|]. split; [reflexivity|].
  injection Hlay as <-.
  destruct A; cbn; auto. now destruct HA.
Qed.

(** When the resize handle is horizontal on the left and right edge and
    vertical on the top and bottom edge, expanding a container on one of the
    four sides gives the handle the very limit that updateSize enforces: the
    extent of the content rectangle in the sliding direction less the 30
    pixel margin. *)
Theorem expanded_handle_limit_matches_margin (A : SideBarLocation) (a : AreaPtr)
    (t : TabPtr) (s s' : State) (c : ContainerPtr) :
  settled A a t s ->
  A <> SideBarNone ->
  (forall e, handleOrientation e = match e with
                                   | LeftEdge | RightEdge => Horizontal
                                   | TopEdge | BottomEdge => Vertical
                                   end) ->
  dockContainer s = Some c ->
  collapseView false s = Some (tt, s') ->
  let R := contentRect (world s) c in
  exists h', ResizeHandle (d s') = Some h' /\
             maxResizeSize h' =
             slidingExtent A (mkQSize (rwidth R) (rheight R)) - ResizeMargin.
Proof.
  intros (_ & _ & Ht & (w & Hw) & (h & Hh & Hp & _) & _) HA Ho Hc E R.
  rewrite (collapseView_false_run s t w h c Ht Hw Hh Hc) in E. injection E as <-.
  cbn. eexists. split; [reflexivity|]. cbn.
  unfold resizeLimit, slidingExtent, ResizeMargin. rewrite Ho, Hp. fold R.
  destruct A; cbn; try reflexivity. now destruct HA.
Qed.

End MoreBehaviour.

(* ================================================================= *)
(** ** The further properties on the recorded session *)

Section OnSession.

Import Session.

Lemma updateSize_leaves_margin_witness :
  leavesMargin SideBarLeft (rectOf 0 0 800 600)
    (super (updateSize (built 5%nat SideBarLeft))).
Proof.
  apply (updateSize_leaves_margin (DS := sessionSystem) (built 5%nat SideBarLeft) 1%nat).
  - reflexivity.
  - vm_compute. discriminate.
Defined.

Lemma updateSize_spans_content_witness :
  top (geometry (super (updateSize (built 5%nat SideBarLeft)))) = 0 /\
  bottom (geometry (super (updateSize (built 5%nat SideBarLeft)))) = 599.
Proof.
  apply (updateSize_spans_content (DS := sessionSystem) (built 5%nat SideBarLeft) 1%nat).
  - reflexivity.
  - vm_compute. split; discriminate.
  - vm_compute. split; discriminate.
Defined.

Lemma setSize_then_saveState_witness :
  saveState (setSize 250 (built 5%nat SideBarLeft)) [] =
  Some [StartElement "Widget"; Attribute "Name" "dock"; Attribute "Closed" "0";
        Attribute "Size" "250"; EndElement].
Proof.
  exact (setSize_then_saveState (DS := sessionSystem) 250 (built 5%nat SideBarLeft)
           5%nat [] ltac:(reflexivity)).
Defined.

Lemma resizeEvent_ignored_outside_drag_witness :
  resizeEvent (built 5%nat SideBarLeft) = Some (tt, built 5%nat SideBarLeft).
Proof.
  apply (resizeEvent_ignored_outside_drag (DS := sessionSystem) (built 5%nat SideBarLeft)
           (mkResizeHandle RightEdge 64 1 true false)); reflexivity.
Defined.


Lemma eventFilter_passes_on_and_never_expands_witness :
  hidden (super (after [OpEventFilter Reference.childOfContainer (Reference.pressAt 500 300)]
                   (built 5%nat SideBarLeft))) = true.
Proof.
  destruct (eventFilter_passes_on_and_never_expands (DS := sessionSystem)
              Reference.childOfContainer (Reference.pressAt 500 300)
              (built 5%nat SideBarLeft)
              (after [OpEventFilter Reference.childOfContainer (Reference.pressAt 500 300)]
                 (built 5%nat SideBarLeft))
              false ltac:(vm_compute; reflexivity))
    as (_ & H & _).
  apply H. reflexivity.
Defined.

Lemma settled_after_operations_witness :
  settled SideBarLeft 20%nat 40%nat
    (after [OpCollapseView false; OpSetSize 300;
            OpEventFilter Reference.childOfContainer (Reference.pressAt 500 300);
            OpAddDockWidget 6%nat; OpSideTabPressed; OpResizeEvent]
       (built 5%nat SideBarLeft)).
Proof.
  exact (settled_after_operations (DS := sessionSystem) (DL := sessionLifetime)
           5%nat SideBarLeft 1%nat Reference.refBase []
           [OpCollapseView false; OpSetSize 300;
            OpEventFilter Reference.childOfContainer (Reference.pressAt 500 300);
            OpAddDockWidget 6%nat; OpSideTabPressed; OpResizeEvent]
           (built 5%nat SideBarLeft)
           (after [OpCollapseView false; OpSetSize 300;
                   OpEventFilter Reference.childOfContainer (Reference.pressAt 500 300);
                   OpAddDockWidget 6%nat; OpSideTabPressed; OpResizeEvent]
              (built 5%nat SideBarLeft))
           ltac:(vm_compute; reflexivity) ltac:(vm_compute; reflexivity)).
Defined.

Lemma operations_never_dereference_null_witness :
  exists s s',
    construct 5%nat SideBarTop 1%nat Reference.refBase [] = Some s /\
    runOperations [OpToggleCollapseState; OpResizeEvent; OpToggleView false] s =
    Some (tt, s').
Proof.
  apply (operations_never_dereference_null (DS := sessionSystem) (DL := sessionLifetime)).
  intros w. cbn. discriminate.
Defined.

Lemma toggleCollapseState_twice_witness :
  exists s1 s2,
    toggleCollapseState (built 5%nat SideBarLeft) = Some (tt, s1) /\
    toggleCollapseState s1 = Some (tt, s2) /\
    hidden (super s1) = false /\
    hidden (super s2) = true /\
    appEventFilter s2 = false.
Proof.
  assert (H : settled SideBarLeft 20%nat 40%nat (built 5%nat SideBarLeft)).
  { unfold settled. vm_compute.
    repeat split; try (eexists; repeat split). }
  assert (Hanch : anchored (DS := sessionSystem) 20%nat)
    by (intros w; cbn; discriminate).
  destruct (proj1 (toggleCollapseState_twice (DS := sessionSystem)
                     SideBarLeft 20%nat 40%nat (built 5%nat SideBarLeft) H Hanch)
              ltac:(reflexivity))
    as (s1 & s2 & H1 & H2 & H3 & H4 & H5).
  exists s1, s2. auto.
Defined.

Lemma eventFilter_other_events_witness :
  exists s',
    eventFilter (mkQObject [] true) (mkQEvent NonClientAreaMouseButtonPress (mkQPoint 0 0))
      (after [OpCollapseView false] (built 5%nat SideBarLeft)) = Some (false, s') /\
    hidden (super s') = true /\ appEventFilter s' = false.
Proof.
  destruct (eventFilter_other_events (DS := sessionSystem)
              (mkQObject [] true)
              (mkQEvent NonClientAreaMouseButtonPress (mkQPoint 0 0))
              (after [OpCollapseView false] (built 5%nat SideBarLeft))
              40%nat (mkResizeHandle RightEdge 64 770 true false)
              ltac:(reflexivity) ltac:(reflexivity))
    as (s' & H1 & _ & H2 & H3).
  exists s'. auto.
Defined.

Lemma cleanupAndDelete_keeps_filter_witness :
  exists s',
    cleanupAndDelete (after [OpCollapseView false] (built 5%nat SideBarLeft)) =
    Some (tt, s') /\
    hidden (super s') = true /\
    appEventFilter s' = true.
Proof.
  destruct (proj1 (cleanupAndDelete_keeps_filter (DS := sessionSystem) (DL := sessionLifetime)
                     (after [OpCollapseView false] (built 5%nat SideBarLeft)))
              5%nat 40%nat ltac:(reflexivity) ltac:(reflexivity))
    as (s' & H1 & H2 & H3 & _).
  exists s'. split; [exact H1|]. split; [exact H2|]. rewrite H3. reflexivity.
Defined.

Lemma moveContentsToParent_same_side_witness :
  (exists s',
     moveContentsToParent (built 5%nat SideBarRight) = Some (tt, s') /\
     last (world s') (inr DeleteLater) =
     inr (ContainerAddDockWidget 1%nat RightDockWidgetArea 5%nat)) /\
  moveContentsToParent orphan = None.
Proof.
  split.
  - destruct (proj1 (proj1 (moveContentsToParent_same_side
                              (DS := sessionSystem) (DL := sessionLifetime)
                              (built 5%nat SideBarRight))
                       5%nat 40%nat ltac:(reflexivity) ltac:(reflexivity))
                1%nat ltac:(reflexivity))
      as (s' & H1 & H2 & _).
    exists s'. split; [exact H1|]. rewrite H2. reflexivity.
  - apply (proj2 (moveContentsToParent_same_side
                    (DS := sessionSystem) (DL := sessionLifetime) orphan)).
    reflexivity.
Defined.

Lemma leaveEvent_forwards_outside_witness :
  world (leaveEvent (mkQEvent OtherEvent (mkQPoint 0 0)) (built 5%nat SideBarLeft)) =
  world (built 5%nat SideBarLeft) ++
  [inr (HandleAutoHideWidgetEvent 1%nat (mkQEvent OtherEvent (mkQPoint 0 0)))].
Proof.
  rewrite (proj2 (leaveEvent_forwards_outside (DS := sessionSystem) (DL := sessionLifetime)
                    (mkQEvent OtherEvent (mkQPoint 0 0)) (built 5%nat SideBarLeft)
                    ltac:(vm_compute; discriminate) ltac:(vm_compute; discriminate))).
  - reflexivity.
  - vm_compute. intros [[_ H] _]. discriminate H.
Defined.

Lemma construct_handle_faces_content_witness :
  SideBarTop <> SideBarNone /\
  exists s h lay a,
    construct 5%nat SideBarTop 1%nat Reference.refBase ([] : World) = Some s /\
    ResizeHandle (d s) = Some h /\
    Layout (d s) = Some lay /\
    DockArea (d s) = Some a.
Proof.
  split; [discriminate|].
  destruct (construct_handle_faces_content (DS := sessionSystem)
              5%nat SideBarTop 1%nat Reference.refBase [] ltac:(discriminate))
    as (s & h & lay & a & H1 & H2 & H3 & H4 & _).
  exists s, h, lay, a. auto.
Defined.

Lemma expanded_handle_limit_matches_margin_witness :
  exists h',
    ResizeHandle (d (after [OpCollapseView false] (built 5%nat SideBarLeft))) = Some h' /\
    maxResizeSize h' = 770.
Proof.
  assert (H : settled SideBarLeft 20%nat 40%nat (built 5%nat SideBarLeft)).
  { unfold settled. vm_compute.
    repeat split; try (eexists; repeat split). }
  exact (expanded_handle_limit_matches_margin (DS := sessionSystem)
           SideBarLeft 20%nat 40%nat (built 5%nat SideBarLeft)
           (after [OpCollapseView false] (built 5%nat SideBarLeft)) 1%nat
           H ltac:(discriminate) ltac:(intros e; reflexivity)
           ltac:(reflexivity) ltac:(vm_compute; reflexivity)).
Defined.

End OnSession.
